(** * H5DataSource: minibatch assembly over an HDF5 data group

    A shallow embedding of [bindings/python/cntk/io/h5reader.py] and the
    properties of its minibatch assembly: the cyclic record selection of
    [next_minibatch], the extraction of the selected records, the reshaping
    of variable-length sequence records and the packaging per stream.

    Modelling conventions.
    - Python integers that count records, samples or array elements are
      [nat]; the requested sample budget, which a caller may pass as zero
      or negative, is [Z].  The size of an array held in memory is far below
      the range of numpy's integers.  The product of a declared element shape
      is not: [np.prod] of the ['shape'] attribute wraps at 64 bits, and for
      an empty attribute it is the float [1.0].  [np_prod] is that product
      on the shapes of [int64_shape], and every statement that depends on
      its value has this as a hypothesis; that an empty shape makes the
      sequence length a float, which [np.reshape] rejects, is modelled in
      [reshape_seq].
    - An exception is a value of [exn]; a computation returns [res A]:
      a value, a raised exception, or [OutOfFuel] when the [while] loop of
      [next_minibatch] was cut off by the fuel of the model.
    - An h5py data group (or the dictionary given in its place) is an
      association list from names to datasets, in iteration order; its keys
      are distinct, as those of a dictionary are.
    - A numpy array is its shape and its elements in row-major order.  The
      elements themselves are never inspected by the reader, so their type
      [V] is a parameter. *)

From Stdlib Require Import String List ZArith Lia Bool Arith PeanoNat.
Import ListNotations.

(** ** Exceptions and results *)

Inductive exn : Type :=
| KeyError (key : string)
| IndexError
| ValueError
| TypeError
| ZeroDivisionError
| UnboundLocalError (name : string).

Inductive res (A : Type) : Type :=
| Ok (a : A)
| Raise (e : exn)
| OutOfFuel.

Arguments Ok {A} a.
Arguments Raise {A} e.
Arguments OutOfFuel {A}.

Definition bind {A B : Type} (c : res A) (k : A -> res B) : res B :=
  match c with
  | Ok a => k a
  | Raise e => Raise e
  | OutOfFuel => OutOfFuel
  end.

Declare Scope res_scope.
Delimit Scope res_scope with res.
Notation "x <- c ;; k" := (bind c (fun x => k))
  (at level 61, c at next level, right associativity) : res_scope.
Notation "' p <- c ;; k" := (bind c (fun x => match x with p => k end))
  (at level 61, p pattern, c at next level, right associativity) : res_scope.
Open Scope res_scope.

(** A raised exception, as opposed to a value or a cut-off loop. *)
Definition raises {A : Type} (c : res A) : Prop := exists e, c = Raise e.

(** ** Python and numpy primitives *)

(** [d[k]] on a dictionary kept as an association list. *)
Fixpoint dict_get {A : Type} (d : list (string * A)) (k : string) : res A :=
  match d with
  | [] => Raise (KeyError k)
  | (k', v) :: d' => if String.eqb k' k then Ok v else dict_get d' k
  end.

(** [d[k] = v]: the entry is replaced in place, or added at the end. *)
Fixpoint dict_set {A : Type} (d : list (string * A)) (k : string) (v : A)
  : list (string * A) :=
  match d with
  | [] => [(k, v)]
  | (k', v') :: d' =>
      if String.eqb k' k then (k', v) :: d' else (k', v') :: dict_set d' k v
  end.

(** [l[a:b]] for [0 <= a] and [0 <= b]: indices beyond the end are clipped,
    and the slice is empty when [b <= a]. *)
Definition slice {A : Type} (l : list A) (a b : nat) : list A :=
  firstn (b - a) (skipn a l).

(** [np.prod] of a shape, for a product inside the range of a signed
    64-bit integer (numpy wraps beyond it). *)
Definition np_prod (shape : list nat) : nat := fold_right Nat.mul 1 shape.

(** Whether [np.prod] of the array kept in the ['shape'] attribute is a
    float: an empty attribute comes back as an empty array of numpy's
    default float type, whose product is [1.0]; a shape with dimensions
    comes back as an integer array. *)
Definition np_prod_is_float (shape : list nat) : bool :=
  match shape with
  | [] => true
  | _ :: _ => false
  end.


(** [a % n] on non-negative integers. *)
Definition py_mod (a n : nat) : res nat :=
  if n =? 0 then Raise ZeroDivisionError else Ok (a mod n).

(** ** Data model *)

Inductive DeviceDescriptor : Type :=
| cpu
| gpu (device_id : nat).

Definition dtype : Type := string.

Record StreamInformation : Type := mkStreamInformation {
  si_name : string;
  si_id : nat;
  si_storage_format : string;
  si_dtype : dtype;
  si_shape : list nat
}.

Section H5Reader.

Context {V : Type}.

(** An array: [nd_shape] is [a.shape], [nd_data] the elements in row-major
    order. *)
Record ndarray : Type := mk_ndarray {
  nd_shape : list nat;
  nd_data : list V
}.

(** numpy keeps [a.size = np.prod(a.shape)]. *)
Definition nd_wf (a : ndarray) : Prop :=
  np_prod (nd_shape a) = length (nd_data a).


(** [np.reshape(a, newshape)]: the same elements under a new shape of the
    same size; [ValueError] when the sizes differ. *)
Definition np_reshape (a : ndarray) (newshape : list nat) : res ndarray :=
  if np_prod newshape =? length (nd_data a)
  then Ok (mk_ndarray newshape (nd_data a))
  else Raise ValueError.

(** [dataset.attrs]: the three attributes the reader looks at, each present
    or not. *)
Record Attrs : Type := mkAttrs {
  attr_is_seq : option bool;
  attr_shape : option (list nat);
  attr_dtype : option string
}.

(** An h5py dataset: its attributes, its native element type, its shape
    without the leading record axis ([dataset.shape[1:]]), and its records
    ([dataset[i]]).  A record of a variable-length dataset is a 1-D block of
    its own length. *)
Record Dataset : Type := mkDataset {
  ds_attrs : Attrs;
  ds_dtype : dtype;
  ds_inner_shape : list nat;
  ds_records : list ndarray
}.

(** ['is_seq' in dataset.attrs and dataset.attrs['is_seq']] *)
Definition is_seq (dataset : Dataset) : bool :=
  match attr_is_seq (ds_attrs dataset) with
  | Some b => b
  | None => false
  end.

(** [dataset.attrs['shape']], as the array the reader turns it into. *)
Definition attrs_shape (dataset : Dataset) : res (list nat) :=
  match attr_shape (ds_attrs dataset) with
  | Some s => Ok s
  | None => Raise (KeyError "shape")
  end.

(** [dataset.attrs['dtype']] *)
Definition attrs_dtype (dataset : Dataset) : res string :=
  match attr_dtype (ds_attrs dataset) with
  | Some s => Ok s
  | None => Raise (KeyError "dtype")
  end.

(** [dataset[data_idx]] for [0 <= data_idx]. *)
Definition ds_getitem (dataset : Dataset) (data_idx : nat) : res ndarray :=
  match nth_error (ds_records dataset) data_idx with
  | Some r => Ok r
  | None => Raise IndexError
  end.

(** The tensor the external builder [Value.create] makes of a batch: the
    shape of the input variable, the per-record arrays and the device.  The
    reader never looks inside it. *)
Record Value : Type := mkValue {
  val_shape : list nat;
  val_data : list ndarray;
  val_device : DeviceDescriptor
}.

Record MinibatchData : Type := mkMinibatchData {
  mb_data : Value;
  mb_num_sequences : nat;
  mb_num_samples : nat;
  mb_sweep_end : bool
}.

(** The state of one [H5DataSource]. *)
Record H5DataSource : Type := mkH5DataSource {
  device : DeviceDescriptor;
  datagroup : list (string * Dataset);
  stream_info_mapping : list (string * StreamInformation);
  num_data_points : nat;
  next_idx : nat
}.

Definition set_next_idx (self : H5DataSource) (idx : nat) : H5DataSource :=
  mkH5DataSource (device self) (datagroup self) (stream_info_mapping self)
    (num_data_points self) idx.

(** ** Construction *)

Section Init.

(** [np.dtype(s)]: the element type a type string denotes, if numpy
    understands the string; it raises [TypeError] otherwise. *)
Variable np_dtype : string -> option dtype.

Definition dataset_shape_ (dataset : Dataset) : res (list nat) :=
  dshape <- attrs_shape dataset ;;
  Ok dshape.

(** The body of [for i, name in enumerate(datagroup)], from ordinal [i] on.
    [num_data_points] is unbound before the first iteration. *)
Fixpoint init_loop (i : nat) (items : list (string * Dataset))
    (stream_infos : list (string * StreamInformation))
    (num_data_points : option nat)
  : res (list (string * StreamInformation) * option nat) :=
  match items with
  | [] => Ok (stream_infos, num_data_points)
  | (name, dataset) :: items' =>
      let storage_format := "dense"%string in
      ' (dshape, dtype) <-
        (if is_seq dataset
         then dshape <- dataset_shape_ dataset ;;
              s <- attrs_dtype dataset ;;
              dtype <- match np_dtype s with
                       | Some t => Ok t
                       | None => Raise TypeError
                       end ;;
              Ok (dshape, dtype)
         else Ok (ds_inner_shape dataset, ds_dtype dataset)) ;;
      let num_data_points := length (ds_records dataset) in
      let strm_info :=
        mkStreamInformation name i storage_format dtype dshape in
      init_loop (S i) items' (dict_set stream_infos name strm_info)
        (Some num_data_points)
  end.

(** [H5DataSource.__init__] *)
Definition init (datagroup : list (string * Dataset))
    (device : DeviceDescriptor) : res H5DataSource :=
  ' (stream_infos, num_data_points) <- init_loop 0 datagroup [] None ;;
  match num_data_points with
  | None => Raise (UnboundLocalError "num_data_points")
  | Some n => Ok (mkH5DataSource device datagroup stream_infos n 0)
  end.

End Init.

Definition stream_infos (self : H5DataSource) : list StreamInformation :=
  map snd (stream_info_mapping self).

(** ** The sequence length of a record *)

(** [seq_size // elm_size] is numpy's integer floor division, which yields 0
    (and a warning) for a divisor of 0, as [Nat.div] does.  For an empty
    declared shape the divisor is the float [1.0] and the quotient the
    float of the same value. *)
Definition sample_count_ (dataset : Dataset) (data_idx : nat) : res nat :=
  if is_seq dataset then
    elm_shape <- attrs_shape dataset ;;
    let elm_size := np_prod elm_shape in
    seq <- ds_getitem dataset data_idx ;;
    let seq_size := np_prod (nd_shape seq) in
    let seq_len := seq_size / elm_size in
    Ok seq_len
  else Ok 1.

(** The loop [for name in self.datagroup] of [max_seq_len_]; going through
    the names and taking [self.datagroup[name]] for each is going through
    the entries. *)
Fixpoint max_seq_len_loop (self : H5DataSource)
    (items : list (string * Dataset)) (idx : nat) (mx_len : nat) : res nat :=
  match items with
  | [] => Ok mx_len
  | (name, dataset) :: items' =>
      strm_info <- dict_get (stream_info_mapping self) name ;;
      c <- sample_count_ dataset idx ;;
      max_seq_len_loop self items' idx (Nat.max mx_len c)
  end.

Definition max_seq_len_ (self : H5DataSource) (idx : nat) : res nat :=
  max_seq_len_loop self (datagroup self) idx 0.

(** ** Record selection *)

(** The [while] loop of [next_minibatch], entered with the current values
    of [end], [sample_count] and [num_seq]; it returns their final values.
    One unit of fuel is spent per iteration. *)
Fixpoint select_loop (fuel : nat) (self : H5DataSource)
    (num_samples_in_batch : Z) (end_ sample_count num_seq : nat)
  : res (nat * nat * nat) :=
  if (Z.of_nat sample_count <? num_samples_in_batch)%Z then
    match fuel with
    | O => OutOfFuel
    | S fuel' =>
        max_seq_len <- max_seq_len_ self end_ ;;
        let sample_count := sample_count + max_seq_len in
        let num_seq := num_seq + 1 in
        end_ <- py_mod (end_ + 1) (num_data_points self) ;;
        if (num_samples_in_batch <? Z.of_nat sample_count)%Z
        then Ok (end_, sample_count, num_seq)
        else select_loop fuel' self num_samples_in_batch
               end_ sample_count num_seq
    end
  else Ok (end_, sample_count, num_seq).

(** ** Extraction, reshaping and packaging *)

(** The records of one dataset that the batch takes:
    [np.concatenate([dataset[start:n], dataset[0:end]])] at the end of a
    sweep, [dataset[start:end]] otherwise. *)
Definition extract (self : H5DataSource) (dataset : Dataset)
    (start end_ : nat) (sweep_end : bool) : list ndarray :=
  if sweep_end
  then slice (ds_records dataset) start (num_data_points self)
       ++ slice (ds_records dataset) 0 end_
  else slice (ds_records dataset) start end_.

(** What [for seq in data] does with one record: its sequence length and
    the record reshaped to [seq_len] elements of shape [elm_shape].  When
    [elm_size] is a float, so is [seq_len], and [np.reshape] raises
    [TypeError] on a dimension that is not an integer. *)
Definition reshape_seq (elm_shape : list nat) (elm_size : nat)
    (seq : ndarray) : res (ndarray * nat) :=
  let seq_size := np_prod (nd_shape seq) in
  let seq_len := seq_size / elm_size in
  let dshape := seq_len :: elm_shape in
  r <- (if np_prod_is_float elm_shape
        then Raise TypeError
        else np_reshape seq dshape) ;;
  Ok (r, seq_len).

(** The loop [for seq in data], with its accumulators [res_data] and
    [sample_count]. *)
Fixpoint reshape_loop (elm_shape : list nat) (elm_size : nat)
    (data : list ndarray) (res_data : list ndarray) (sample_count : nat)
  : res (list ndarray * nat) :=
  match data with
  | [] => Ok (res_data, sample_count)
  | seq :: data' =>
      ' (r, seq_len) <- reshape_seq elm_shape elm_size seq ;;
      reshape_loop elm_shape elm_size data' (res_data ++ [r])
        (sample_count + seq_len)
  end.

(** One iteration of [for name in self.datagroup] in [next_minibatch]. *)
Definition stream_batch (self : H5DataSource) (mydevice : DeviceDescriptor)
    (start end_ num_seq : nat) (sweep_end : bool)
    (name : string) (dataset : Dataset)
  : res (StreamInformation * MinibatchData) :=
  strm_info <- dict_get (stream_info_mapping self) name ;;
  let data := extract self dataset start end_ sweep_end in
  if is_seq dataset then
    elm_shape <- attrs_shape dataset ;;
    let elm_size := np_prod elm_shape in
    ' (res_data, sample_count) <- reshape_loop elm_shape elm_size data [] 0 ;;
    let data := mkValue elm_shape res_data mydevice in
    Ok (strm_info, mkMinibatchData data num_seq sample_count sweep_end)
  else
    let sample_count := num_seq in
    let dshape := ds_inner_shape dataset in
    let data := mkValue dshape data mydevice in
    Ok (strm_info, mkMinibatchData data num_seq sample_count sweep_end).

(** The whole [for name in self.datagroup] of [next_minibatch]; [result]
    is the dictionary built so far.  Its keys are the stream objects, one
    per name, so every assignment adds an entry. *)
Fixpoint batch_loop (self : H5DataSource) (mydevice : DeviceDescriptor)
    (start end_ num_seq : nat) (sweep_end : bool)
    (items : list (string * Dataset))
    (result : list (StreamInformation * MinibatchData))
  : res (list (StreamInformation * MinibatchData)) :=
  match items with
  | [] => Ok result
  | (name, dataset) :: items' =>
      entry <- stream_batch self mydevice start end_ num_seq sweep_end
                 name dataset ;;
      batch_loop self mydevice start end_ num_seq sweep_end items'
        (result ++ [entry])
  end.

(** [H5DataSource.next_minibatch]: the source after the call and what the
    call returned or raised.  The cursor is stored before the batch is
    assembled, so it is advanced even when assembly raises. *)
Definition next_minibatch (fuel : nat) (self : H5DataSource)
    (num_samples_in_batch : Z) (number_of_workers worker_rank : nat)
    (device_arg : option DeviceDescriptor)
  : H5DataSource * res (list (StreamInformation * MinibatchData)) :=
  let mydevice :=
    match device_arg with Some d => d | None => device self end in
  let start := next_idx self in
  match select_loop fuel self num_samples_in_batch start 0 0 with
  | Ok (end_, _, num_seq) =>
      let self' := set_next_idx self end_ in
      let sweep_end := if start <? end_ then false else true in
      (self', batch_loop self' mydevice start end_ num_seq sweep_end
                (datagroup self') [])
  | Raise e => (self, Raise e)
  | OutOfFuel => (self, OutOfFuel)
  end.

End H5Reader.

Arguments ndarray : clear implicits.
Arguments Dataset : clear implicits.
Arguments Value : clear implicits.
Arguments MinibatchData : clear implicits.
Arguments H5DataSource : clear implicits.

(** ** A small data group

    Ten records and two streams, as in the scenario of the specification:
    [fixed] has one sample per record, [seq] is a variable-length stream of
    element shape (3,) whose records hold 2,3,4,2,3,2,4,3,2,3 elements. *)

Definition block (n : nat) (x : Z) : ndarray Z :=
  mk_ndarray [n] (map (fun j => (100 * x + Z.of_nat j)%Z) (seq 0 n)).

Definition seq_attrs : Attrs :=
  mkAttrs (Some true) (Some [3]) (Some "f4"%string).

Definition no_attrs : Attrs := mkAttrs None None None.

Definition ex_seq_lens : list nat := [2; 3; 4; 2; 3; 2; 4; 3; 2; 3].

Definition ex_seq : Dataset Z :=
  mkDataset seq_attrs "O"%string []
    (map (fun '(i, k) => block (3 * k) (Z.of_nat i))
         (combine (seq 0 10) ex_seq_lens)).

Definition ex_fixed : Dataset Z :=
  mkDataset no_attrs "f4"%string [1]
    (map (fun i => block 1 (Z.of_nat i)) (seq 0 10)).

Definition ex_group : list (string * Dataset Z) :=
  [("fixed"%string, ex_fixed); ("seq"%string, ex_seq)].

(** A variable-length stream all of whose records are empty sequences. *)
Definition ex_empty_seq : Dataset Z :=
  mkDataset seq_attrs "O"%string [] [block 0 0; block 0 1; block 0 2].

Definition ex_empty_source : H5DataSource Z :=
  mkH5DataSource cpu [("seq"%string, ex_empty_seq)]
    [("seq"%string,
      mkStreamInformation "seq"%string 0 "dense"%string "float32"%string [3])]
    3 0.


(** numpy's type strings, as far as the examples need them. *)
Definition ex_np_dtype (s : string) : option dtype :=
  if String.eqb s "f4" then Some "float32"%string
  else if String.eqb s "i4" then Some "int32"%string
  else None.

(** A data group whose sequence stream declares no element shape. *)
Definition ex_group_no_shape : list (string * Dataset Z) :=
  [("fixed"%string, ex_fixed);
   ("seq"%string,
    mkDataset (mkAttrs (Some true) None (Some "f4"%string)) "O"%string []
      [block 6 0])].

Definition ex_infos : list (string * StreamInformation) :=
  [("fixed"%string,
    mkStreamInformation "fixed"%string 0 "dense"%string "f4"%string [1]);
   ("seq"%string,
    mkStreamInformation "seq"%string 1 "dense"%string "float32"%string [3])].

(** The source constructed over [ex_group], with its cursor at [cursor]. *)
Definition ex_source (cursor : nat) : H5DataSource Z :=
  mkH5DataSource cpu ex_group ex_infos 10 cursor.

(** The calls of the two scenarios of the specification, and a call with
    a budget of zero. *)
Definition ex_call_0_7 :=
  Eval vm_compute in next_minibatch 5 (ex_source 0) 7 1 0 None.

Definition ex_call_8_5 :=
  Eval vm_compute in next_minibatch 5 (ex_source 8) 5 1 0 None.


Definition batch_of {V : Type}
    (call : H5DataSource V * res (list (StreamInformation * MinibatchData V)))
  : list (StreamInformation * MinibatchData V) :=
  match snd call with
  | Ok result => result
  | _ => []
  end.

(** ** Vocabulary of the properties *)

(** The exceptions construction raises for the metadata of a sequence
    stream: a missing attribute, or a type string numpy rejects. *)
Definition schema_error (e : exn) : Prop :=
  e = KeyError "shape" \/ e = KeyError "dtype" \/ e = TypeError.

(** The elements of [l] whose index is in [[a, b)], in the order of [l]. *)
Definition records_in {A : Type} (l : list A) (a b : nat) : list A :=
  flat_map (fun i => match nth_error l i with
                     | Some x => [x]
                     | None => []
                     end)
           (seq a (b - a)).


Section Vocabulary.

Context {V : Type}.

(** The record after [e] on the cyclic record axis. *)
Definition succ_record (self : H5DataSource V) (e : nat) : nat :=
  (e + 1) mod num_data_points self.

(** The elements of a batch, record by record, without their shapes. *)
Definition payload (mb : MinibatchData V) : list (list V) :=
  map nd_data (val_data (mb_data mb)).

(** The sequence length the reader gives a record of element shape
    [elm_shape]. *)
Definition seq_len_of (elm_shape : list nat) (seq : ndarray V) : nat :=
  np_prod (nd_shape seq) / np_prod elm_shape.

(** A record that splits into whole elements of shape [elm_shape]. *)
Definition exact_record (elm_shape : list nat) (seq : ndarray V) : Prop :=
  nd_wf seq /\ length (nd_data seq) mod np_prod elm_shape = 0.

(** Every array of the data group has [num_data_points] records. *)
Definition aligned (self : H5DataSource V) : Prop :=
  Forall (fun item => length (ds_records (snd item)) = num_data_points self)
         (datagroup self).

(** A stream that is in the catalog and, when a sequence stream, declares
    its element shape and holds records that split into whole elements. *)
Definition stream_ok (self : H5DataSource V) (item : string * Dataset V)
  : Prop :=
  (exists info, dict_get (stream_info_mapping self) (fst item) = Ok info) /\
  (is_seq (snd item) = true ->
   exists elm_shape,
     attrs_shape (snd item) = Ok elm_shape /\
     Forall (exact_record elm_shape) (ds_records (snd item))).

(** The state a constructed source over sound data is in between calls. *)
Definition well_formed (self : H5DataSource V) : Prop :=
  next_idx self < num_data_points self /\
  aligned self /\
  Forall (stream_ok self) (datagroup self).

(** What one stream gets out of a call that took the records from [start]
    to [end_] ([num_seq] of them counted, [sweep_end] set or not): the entry
    for [item] is its catalog entry with a batch that carries the shared
    counts, the elements of the extracted records, and its own number of
    samples. *)
Definition packaged (self : H5DataSource V) (start end_ num_seq : nat)
    (sweep_end : bool) (item : string * Dataset V)
    (entry : StreamInformation * MinibatchData V) : Prop :=
  let data := extract self (snd item) start end_ sweep_end in
  let mb := snd entry in
  dict_get (stream_info_mapping self) (fst item) = Ok (fst entry) /\
  mb_num_sequences mb = num_seq /\
  mb_sweep_end mb = sweep_end /\
  payload mb = map nd_data data /\
  (is_seq (snd item) = false ->
   val_data (mb_data mb) = data /\ mb_num_samples mb = num_seq) /\
  (is_seq (snd item) = true ->
   exists elm_shape,
     attrs_shape (snd item) = Ok elm_shape /\
     map nd_shape (val_data (mb_data mb))
     = map (fun seq => seq_len_of elm_shape seq :: elm_shape) data /\
     mb_num_samples mb = list_sum (map (seq_len_of elm_shape) data)).

(** The batch of one stream, for a call that moved the cursor from [start]
    to [end_] over arrays of [n] records: the sweep flag says whether the new
    cursor is at or before the old one; a batch with the flag holds the
    records [[start, n)] followed by the records [[0, end_)], a batch without
    it holds the records [[start, end_)].  A sequence stream holds them
    reshaped, with the same elements; any other stream holds them as they
    are. *)
Definition follows_cursor (n start end_ : nat) (item : string * Dataset V)
    (entry : StreamInformation * MinibatchData V) : Prop :=
  let recs := ds_records (snd item) in
  let mb := snd entry in
  (mb_sweep_end mb = true <-> end_ <= start) /\
  (mb_sweep_end mb = true ->
   payload mb
   = map nd_data (records_in recs start n ++ records_in recs 0 end_) /\
   (is_seq (snd item) = false ->
    val_data (mb_data mb)
    = records_in recs start n ++ records_in recs 0 end_)) /\
  (mb_sweep_end mb = false ->
   payload mb = map nd_data (records_in recs start end_) /\
   (is_seq (snd item) = false ->
    val_data (mb_data mb) = records_in recs start end_)).


End Vocabulary.

(** ** Vocabulary of the catalog *)

Section CatalogVocabulary.

Context {V : Type}.
Variable np_dtype : string -> option dtype.

(** What construction asks of an array: nothing unless it is declared a
    sequence, and then an element shape and an element type string that
    numpy understands. *)
Definition metadata_ok (dataset : Dataset V) : Prop :=
  is_seq dataset = true ->
  exists sh s t,
    attr_shape (ds_attrs dataset) = Some sh /\
    attr_dtype (ds_attrs dataset) = Some s /\
    np_dtype s = Some t.

(** The catalog entry of the [i]-th array of the data group: its name, its
    ordinal, dense storage, and the element shape and type, declared for a
    sequence array and native otherwise. *)
Definition catalogued (i : nat) (item : string * Dataset V)
    (info : StreamInformation) : Prop :=
  si_name info = fst item /\
  si_id info = i /\
  si_storage_format info = "dense"%string /\
  (is_seq (snd item) = false ->
   si_shape info = ds_inner_shape (snd item) /\
   si_dtype info = ds_dtype (snd item)) /\
  (is_seq (snd item) = true ->
   attr_shape (ds_attrs (snd item)) = Some (si_shape info) /\
   exists s, attr_dtype (ds_attrs (snd item)) = Some s /\
             np_dtype s = Some (si_dtype info)).

(** A catalog that lists the arrays [items] in their order, with ordinals
    from [i] on. *)
Fixpoint catalogue_from (i : nat) (items : list (string * Dataset V))
    (entries : list (string * StreamInformation)) : Prop :=
  match items, entries with
  | [], [] => True
  | item :: items', (k, info) :: entries' =>
      k = fst item /\ catalogued i item info /\
      catalogue_from (S i) items' entries'
  | _, _ => False
  end.

End CatalogVocabulary.

(** ** Vocabulary of the batch request *)


(** A source over one array that has no record. *)
Definition ex_no_records : H5DataSource Z :=
  mkH5DataSource cpu
    [("fixed"%string, mkDataset no_attrs "f4"%string [1] [])]
    [("fixed"%string,
      mkStreamInformation "fixed"%string 0 "dense"%string "f4"%string [1])]
    0 0.

Section RequestVocabulary.

Context {V : Type}.


(** The batch of one stream, for a call from cursor [start] that counted
    between one and [n] records: it holds as many records as were counted,
    and its [j]-th record has the elements of record [(start + j) mod n] of
    the array. *)
Definition holds_visited (n start : nat) (item : string * Dataset V)
    (entry : StreamInformation * MinibatchData V) : Prop :=
  let recs := ds_records (snd item) in
  let mb := snd entry in
  1 <= mb_num_sequences mb <= n ->
  length (payload mb) = mb_num_sequences mb /\
  forall j, j < mb_num_sequences mb ->
    nth_error (payload mb) j
    = option_map nd_data (nth_error recs ((start + j) mod n)).

(** The entry of one stream in the result of a call: its key is the catalog
    entry that bears the name of the stream, and its tensor has the element
    shape of that catalog entry and is on the device [mydevice]. *)
Definition keyed_by_catalog (mydevice : DeviceDescriptor)
    (item : string * Dataset V)
    (entry : StreamInformation * MinibatchData V) : Prop :=
  si_name (fst entry) = fst item /\
  val_shape (mb_data (snd entry)) = si_shape (fst entry) /\
  val_device (mb_data (snd entry)) = mydevice.

End RequestVocabulary.

(** ** Vocabulary of the declared shapes *)

Section ShapeVocabulary.

Context {V : Type}.



End ShapeVocabulary.

(** ** Results: elementary facts *)

Lemma bind_Ok_inv {A B : Type} (c : res A) (k : A -> res B) (b : B) :
  bind c k = Ok b -> exists a, c = Ok a /\ k a = Ok b.
Proof.
  destruct c as [a| |]; simpl; intros H; try discriminate.
  exists a; split; [reflexivity | exact H].
Qed.

Lemma py_mod_Ok (a n : nat) :
  n <> 0 -> py_mod a n = Ok (a mod n).
Proof.
  intros Hn. unfold py_mod.
  destruct (Nat.eqb_spec n 0) as [E|_]; [contradiction | reflexivity].
Qed.

Lemma py_mod_Ok_inv (a n r : nat) :
  py_mod a n = Ok r -> n <> 0 /\ r = a mod n.
Proof.
  unfold py_mod. destruct (Nat.eqb_spec n 0) as [E|E]; intros H.
  - discriminate.
  - injection H as <-. split; [exact E | reflexivity].
Qed.

Lemma iter_shift {A : Type} (f : A -> A) (j : nat) (x : A) :
  Nat.iter j f (f x) = f (Nat.iter j f x).
Proof.
  induction j as [|j IH]; simpl; [reflexivity | rewrite IH; reflexivity].
Qed.

(** ** The record selection loop *)

Section Selection.

Context {V : Type}.
Variable self : H5DataSource V.
Variable req : Z.

Local Abbreviation n := (num_data_points self).

Local Abbreviation succ_record := (succ_record self).

Lemma iter_succ_record (e j : nat) :
  e < n -> Nat.iter j succ_record e = (e + j) mod n.
Proof.
  intros He. induction j as [|j IH]; simpl.
  - rewrite Nat.add_0_r. symmetry. apply Nat.mod_small. exact He.
  - rewrite IH. unfold succ_record.
    rewrite Nat.Div0.add_mod_idemp_l. f_equal. lia.
Qed.


(** What the loop has done when it returns: it went through the records
    [e], [succ e], ... one by one, [lens] being their maximal sample
    counts; the running total was below the budget before each of them and
    is at least the budget at the end. *)
Lemma select_loop_inv (fuel : nat) :
  forall e sc ns e' sc' ns',
    select_loop fuel self req e sc ns = Ok (e', sc', ns') ->
    exists lens : list nat,
      ns' = ns + length lens /\
      sc' = sc + list_sum lens /\
      e' = Nat.iter (length lens) succ_record e /\
      (forall j, j < length lens ->
         max_seq_len_ self (Nat.iter j succ_record e) = Ok (nth j lens 0)) /\
      (forall j, j < length lens ->
         (Z.of_nat (sc + list_sum (firstn j lens)) < req)%Z) /\
      (req <= Z.of_nat sc')%Z /\
      (lens <> [] -> n <> 0).
Proof.
  induction fuel as [|fuel IH]; intros e sc ns e' sc' ns' H.
  - simpl in H. destruct (Z.ltb_spec (Z.of_nat sc) req) as [Hlt|Hge].
    + discriminate.
    + injection H as <- <- <-. exists []. simpl.
      repeat split; try lia; try (intros; lia). congruence.
  - simpl in H. destruct (Z.ltb_spec (Z.of_nat sc) req) as [Hlt|Hge].
    + apply bind_Ok_inv in H. destruct H as [m [Hm H]].
      apply bind_Ok_inv in H. destruct H as [e1 [He1 H]].
      apply py_mod_Ok_inv in He1. destruct He1 as [Hn He1].
      assert (Hstep : e1 = succ_record e) by (rewrite He1; reflexivity).
      destruct (Z.ltb_spec req (Z.of_nat (sc + m))) as [Hbrk|Hcont].
      * injection H as <- <- <-. exists [m]. simpl.
        split; [lia|]. split; [lia|]. split; [exact Hstep|].
        split; [|split; [|split; [lia | intros _; exact Hn]]].
        -- intros j Hj. assert (j = 0) by lia. subst j. exact Hm.
        -- intros j Hj. assert (j = 0) by lia. subst j. simpl. lia.
      * apply IH in H.
        destruct H as [lens [Hns [Hsc [He' [Hmax [Hpre [Hfin _]]]]]]].
        exists (m :: lens). simpl.
        split; [lia|]. split; [lia|].
        split; [rewrite He', Hstep; apply iter_shift|].
        split; [|split; [|split; [lia | intros _; exact Hn]]].
        -- intros j Hj. destruct j as [|j]; [exact Hm|].
           change (Nat.iter (S j) succ_record e)
             with (succ_record (Nat.iter j succ_record e)).
           rewrite <- iter_shift, <- Hstep. apply Hmax. lia.
        -- intros j Hj. destruct j as [|j]; simpl; [lia|].
           specialize (Hpre j ltac:(lia)). lia.
    + injection H as <- <- <-. exists []. simpl.
      repeat split; try lia; try (intros; lia). congruence.
Qed.

(** More fuel does not change a result. *)
Lemma select_loop_fuel_mono (fuel : nat) :
  forall fuel' e sc ns r,
    select_loop fuel self req e sc ns = Ok r ->
    fuel <= fuel' ->
    select_loop fuel' self req e sc ns = Ok r.
Proof.
  induction fuel as [|fuel IH]; intros fuel' e sc ns r H Hle.
  - simpl in H. destruct fuel'; simpl;
      destruct (Z.of_nat sc <? req)%Z; try discriminate; exact H.
  - destruct fuel' as [|fuel']; [lia|].
    simpl in H |- *. destruct (Z.of_nat sc <? req)%Z; [|exact H].
    destruct (max_seq_len_ self e) as [m| |]; simpl in H |- *;
      try discriminate.
    destruct (py_mod (e + 1) (num_data_points self)) as [e1| |];
      simpl in H |- *; try discriminate.
    destruct (req <? Z.of_nat (sc + m))%Z; [exact H|].
    apply IH; [exact H | lia].
Qed.


(** Termination, when every record counts for at least one sample: the
    budget minus the running total bounds the iterations left. *)
Lemma select_loop_returns (fuel : nat) :
  (forall i, i < n -> exists m, max_seq_len_ self i = Ok m /\ 1 <= m) ->
  forall e sc ns,
    e < n ->
    Z.to_nat (req - Z.of_nat sc) <= fuel ->
    exists r, select_loop fuel self req e sc ns = Ok r.
Proof.
  intros Hpos. induction fuel as [|fuel IH]; intros e sc ns He Hfuel.
  - simpl. destruct (Z.ltb_spec (Z.of_nat sc) req) as [Hlt|Hge].
    + lia.
    + eexists; reflexivity.
  - simpl. destruct (Z.ltb_spec (Z.of_nat sc) req) as [Hlt|Hge].
    + destruct (Hpos e He) as [m [Hm Hm1]]. rewrite Hm. simpl.
      rewrite py_mod_Ok by lia. simpl.
      destruct (Z.ltb_spec req (Z.of_nat (sc + m))) as [Hbrk|Hcont].
      * eexists; reflexivity.
      * apply IH.
        -- apply Nat.mod_upper_bound. lia.
        -- lia.
    + eexists; reflexivity.
Qed.

(** No termination, when no record counts for a sample: the running total
    stays at zero, below any positive budget. *)
Lemma select_loop_spins (fuel : nat) :
  (forall i, i < n -> max_seq_len_ self i = Ok 0) ->
  (0 < req)%Z ->
  forall e ns, e < n -> select_loop fuel self req e 0 ns = OutOfFuel.
Proof.
  intros Hzero Hreq. induction fuel as [|fuel IH]; intros e ns He.
  - simpl. destruct (Z.ltb_spec 0 req); [reflexivity | lia].
  - simpl. destruct (Z.ltb_spec 0 req) as [_|Hge]; [|lia].
    rewrite (Hzero e He). simpl.
    rewrite py_mod_Ok by lia. simpl.
    destruct (Z.ltb_spec req 0) as [Hlt|_]; [lia|].
    apply IH. apply Nat.mod_upper_bound. lia.
Qed.

(** C1 (as amended): with a positive budget the loop starts at the cursor,
    goes through consecutive records of the cyclic record axis, adds up the
    maximal per-stream sample count of each, takes at least one record, and
    stops the first time the running total is at least the budget; it is
    below the budget before every record taken.  The cursor of the source
    after the call is where the loop stopped. *)
Theorem select_loop_first_reaching_budget
    (fuel e total k number_of_workers worker_rank : nat)
    (device_arg : option DeviceDescriptor) :
  (0 < req)%Z ->
  next_idx self < num_data_points self ->
  select_loop fuel self req (next_idx self) 0 0 = Ok (e, total, k) ->
  1 <= k /\
  e = (next_idx self + k) mod num_data_points self /\
  next_idx (fst (next_minibatch fuel self req number_of_workers worker_rank
                   device_arg)) = e /\
  exists lens : list nat,
    length lens = k /\
    (forall j, j < k ->
       max_seq_len_ self ((next_idx self + j) mod num_data_points self)
       = Ok (nth j lens 0)) /\
    total = list_sum lens /\
    (forall j, j < k -> (Z.of_nat (list_sum (firstn j lens)) < req)%Z) /\
    (req <= Z.of_nat total)%Z.
Proof.
  intros Hreq Hcur Hsel.
  pose proof (select_loop_inv _ _ _ _ _ _ _ Hsel) as Hinv.
  destruct Hinv as [lens [Hk [Htot [He [Hmax [Hpre [Hfin Hn]]]]]]].
  simpl in Hk, Htot.
  assert (Hk1 : 1 <= k).
  { destruct lens as [|m lens]; simpl in *; [lia|lia]. }
  split; [exact Hk1|].
  split; [rewrite He, <- Hk; apply iter_succ_record; exact Hcur|].
  split; [unfold next_minibatch; rewrite Hsel; reflexivity|].
  exists lens. subst k.
  split; [reflexivity|].
  split; [intros j Hj; rewrite <- (iter_succ_record _ j Hcur);
          apply Hmax; exact Hj|].
  split; [exact Htot|].
  split; [intros j Hj; exact (Hpre j Hj) | exact Hfin].
Qed.

(** C8: the selection loop returns, whatever the budget, once every record
    counts for at least one sample in some stream (the cursor being inside
    a data set of at least one record); and it never returns when every
    record counts for zero samples and the budget is positive. *)
Theorem select_loop_terminates_iff_progress :
  next_idx self < num_data_points self ->
  ((forall i, i < num_data_points self ->
      exists m, max_seq_len_ self i = Ok m /\ 1 <= m) ->
   exists r, forall fuel, Z.to_nat req <= fuel ->
     select_loop fuel self req (next_idx self) 0 0 = Ok r) /\
  ((forall i, i < num_data_points self -> max_seq_len_ self i = Ok 0) ->
   (0 < req)%Z ->
   forall fuel, select_loop fuel self req (next_idx self) 0 0 = OutOfFuel).
Proof.
  intros Hcur. split.
  - intros Hpos.
    destruct (select_loop_returns (Z.to_nat req) Hpos (next_idx self) 0 0 Hcur)
      as [r Hr]; [simpl; lia|].
    exists r. intros fuel Hfuel.
    eapply select_loop_fuel_mono; eassumption.
  - intros Hzero Hreq fuel.
    exact (select_loop_spins fuel Hzero Hreq _ 0 Hcur).
Qed.

End Selection.

Lemma select_loop_first_reaching_budget_witness :
  (0 < 7)%Z /\
  next_idx (ex_source 0) < num_data_points (ex_source 0) /\
  select_loop 5 (ex_source 0) 7 (next_idx (ex_source 0)) 0 0 = Ok (3, 9, 3) /\
  (1 <= 3 /\
   3 = (next_idx (ex_source 0) + 3) mod num_data_points (ex_source 0) /\
   next_idx (fst (next_minibatch 5 (ex_source 0) 7 1 0 None)) = 3 /\
   exists lens : list nat,
     length lens = 3 /\
     (forall j, j < 3 ->
        max_seq_len_ (ex_source 0)
          ((next_idx (ex_source 0) + j) mod num_data_points (ex_source 0))
        = Ok (nth j lens 0)) /\
     9 = list_sum lens /\
     (forall j, j < 3 -> (Z.of_nat (list_sum (firstn j lens)) < 7)%Z) /\
     (7 <= Z.of_nat 9)%Z).
Proof.
  assert (H1 : (0 < 7)%Z) by lia.
  assert (H2 : next_idx (ex_source 0) < num_data_points (ex_source 0))
    by (vm_compute; lia).
  assert (H3 : select_loop 5 (ex_source 0) 7 (next_idx (ex_source 0)) 0 0
               = Ok (3, 9, 3)) by (vm_compute; reflexivity).
  split; [exact H1|]. split; [exact H2|]. split; [exact H3|].
  exact (select_loop_first_reaching_budget (ex_source 0) 7 5 3 9 3 1 0 None
           H1 H2 H3).
Defined.

(** C1 as stated fails: from cursor 8 with a budget of 5 the loop takes
    records 8 and 9, which count for 2 and 3 samples, and stops with a total
    of exactly 5, not above the budget; the cursor is then 0, the record
    that a stop on a total strictly above 5 would still have taken. *)
Lemma select_loop_stops_on_equal_total :
  select_loop 5 (ex_source 8) 5 (next_idx (ex_source 8)) 0 0 = Ok (0, 5, 2) /\
  next_idx (fst (next_minibatch 5 (ex_source 8) 5 1 0 None)) = 0 /\
  ~ (5 < Z.of_nat 5)%Z.
Proof.
  split; [vm_compute; reflexivity|].
  split; [vm_compute; reflexivity | lia].
Qed.

Lemma select_loop_terminates_iff_progress_witness :
  next_idx (ex_source 0) < num_data_points (ex_source 0) /\
  next_idx ex_empty_source < num_data_points ex_empty_source /\
  (exists r, forall fuel, Z.to_nat 7 <= fuel ->
     select_loop fuel (ex_source 0) 7 (next_idx (ex_source 0)) 0 0 = Ok r) /\
  (forall fuel,
     select_loop fuel ex_empty_source 1 (next_idx ex_empty_source) 0 0
     = OutOfFuel).
Proof.
  assert (H1 : next_idx (ex_source 0) < num_data_points (ex_source 0))
    by (vm_compute; lia).
  assert (H2 : next_idx ex_empty_source < num_data_points ex_empty_source)
    by (vm_compute; lia).
  split; [exact H1|]. split; [exact H2|]. split.
  - apply (proj1 (select_loop_terminates_iff_progress (ex_source 0) 7 H1)).
    intros i Hi. change (num_data_points (ex_source 0)) with 10 in Hi.
    do 10 (destruct i as [|i];
           [eexists; split; [vm_compute; reflexivity | lia]|]).
    lia.
  - apply (proj2 (select_loop_terminates_iff_progress ex_empty_source 1 H2)).
    + intros i Hi. change (num_data_points ex_empty_source) with 3 in Hi.
      do 3 (destruct i as [|i]; [vm_compute; reflexivity|]).
      lia.
    + lia.
Defined.

(** ** Construction fails on a sequence stream without its metadata *)

Section Construction.

Context {V : Type}.
Variable np_dtype : string -> option dtype.

Lemma init_loop_counts_last (name : string) (ds : Dataset V) :
  forall (items : list (string * Dataset V)) i infos ndp infos' ndp',
    init_loop np_dtype i (items ++ [(name, ds)]) infos ndp
    = Ok (infos', ndp') ->
    ndp' = Some (length (ds_records ds)).
Proof.
  induction items as [|[name0 ds0] items IH];
    intros i infos ndp infos' ndp' H;
    cbn [app init_loop] in H; apply bind_Ok_inv in H;
    destruct H as [[dshape dt] [_ H]].
  - simpl in H. injection H as _ <-. reflexivity.
  - apply IH in H. exact H.
Qed.


Lemma init_loop_fails_without_metadata (name : string) (ds : Dataset V) :
  is_seq ds = true ->
  attr_shape (ds_attrs ds) = None \/ attr_dtype (ds_attrs ds) = None ->
  forall items i infos ndp,
    In (name, ds) items ->
    exists e, init_loop np_dtype i items infos ndp = Raise e /\ schema_error e.
Proof.
  intros Hseq Hmiss. induction items as [|[name' ds'] items IH];
    intros i infos ndp Hin.
  - destruct Hin.
  - simpl. destruct Hin as [Heq|Hin].
    + injection Heq as -> ->. rewrite Hseq.
      unfold dataset_shape_, attrs_shape, attrs_dtype.
      destruct (attr_shape (ds_attrs ds)) as [sh|] eqn:Hsh; simpl.
      * destruct Hmiss as [Hm|Hm]; [discriminate|]. rewrite Hm. simpl.
        eexists; split; [reflexivity | right; left; reflexivity].
      * eexists; split; [reflexivity | left; reflexivity].
    + destruct (is_seq ds') eqn:Hseq'.
      * unfold dataset_shape_, attrs_shape, attrs_dtype.
        destruct (attr_shape (ds_attrs ds')) as [sh|]; simpl;
          [|eexists; split; [reflexivity | left; reflexivity]].
        destruct (attr_dtype (ds_attrs ds')) as [dt|]; simpl;
          [|eexists; split; [reflexivity | right; left; reflexivity]].
        destruct (np_dtype dt) as [t|]; simpl;
          [|eexists; split; [reflexivity | right; right; reflexivity]].
        apply IH. exact Hin.
      * simpl. apply IH. exact Hin.
Qed.

(** C7: construction raises, and so yields no data source to ask a batch
    from, as soon as one array of the data group is declared a sequence and
    lacks the element shape or the element type attribute.  The exception
    is the [KeyError] of the missing attribute (or, when an earlier sequence
    array carries a type string numpy rejects, the [TypeError] of that). *)
Theorem init_fails_without_metadata
    (datagroup : list (string * Dataset V)) (device : DeviceDescriptor)
    (name : string) (ds : Dataset V) :
  In (name, ds) datagroup ->
  is_seq ds = true ->
  attr_shape (ds_attrs ds) = None \/ attr_dtype (ds_attrs ds) = None ->
  (exists e, init np_dtype datagroup device = Raise e /\ schema_error e) /\
  (forall self, init np_dtype datagroup device <> Ok self).
Proof.
  intros Hin Hseq Hmiss.
  destruct (init_loop_fails_without_metadata name ds Hseq Hmiss
              datagroup 0 [] None Hin) as [e [He Hcls]].
  assert (Hinit : init np_dtype datagroup device = Raise e).
  { unfold init. rewrite He. reflexivity. }
  split.
  - exists e. split; [exact Hinit | exact Hcls].
  - intros self Hok. rewrite Hinit in Hok. discriminate.
Qed.

End Construction.

Lemma init_fails_without_metadata_witness :
  In ("seq"%string,
      mkDataset (mkAttrs (Some true) None (Some "f4"%string)) "O"%string []
        [block 6 0]) ex_group_no_shape /\
  (exists e, init ex_np_dtype ex_group_no_shape cpu = Raise e /\
             schema_error e) /\
  (forall self, init ex_np_dtype ex_group_no_shape cpu <> Ok self).
Proof.
  assert (Hin : In ("seq"%string,
      mkDataset (mkAttrs (Some true) None (Some "f4"%string)) "O"%string []
        [block 6 0]) ex_group_no_shape)
    by (right; left; reflexivity).
  split; [exact Hin|].
  exact (init_fails_without_metadata ex_np_dtype ex_group_no_shape cpu
           _ _ Hin eq_refl (or_introl eq_refl)).
Defined.

(** ** Slices of lists *)




Lemma slice_to_end {A : Type} (l : list A) (a : nat) :
  slice l a (length l) = skipn a l.
Proof.
  unfold slice. apply firstn_all2. rewrite length_skipn. lia.
Qed.

Lemma slice_length {A : Type} (l : list A) (a b : nat) :
  b <= length l -> length (slice l a b) = b - a.
Proof.
  intros Hb. unfold slice. rewrite length_firstn, length_skipn. lia.
Qed.

Lemma skipn_cons_nth_error {A : Type} (a : nat) :
  forall (l : list A) (x : A),
    nth_error l a = Some x -> skipn a l = x :: skipn (S a) l.
Proof.
  induction a as [|a IH]; intros l x H; destruct l as [|y l];
    simpl in H; try discriminate.
  - injection H as ->. reflexivity.
  - simpl. rewrite (IH l x H). reflexivity.
Qed.

Lemma firstn_skipn_records_in {A : Type} (l : list A) (k : nat) :
  forall a, firstn k (skipn a l) = records_in l a (a + k).
Proof.
  unfold records_in. induction k as [|k IH]; intros a.
  - rewrite Nat.add_0_r, Nat.sub_diag. reflexivity.
  - replace (a + S k - a) with (S k) by lia. cbn [seq flat_map].
    specialize (IH (S a)). replace (S a + k - S a) with k in IH by lia.
    rewrite <- IH.
    destruct (nth_error l a) as [x|] eqn:Hnth.
    + rewrite (skipn_cons_nth_error _ _ _ Hnth). reflexivity.
    + apply nth_error_None in Hnth.
      rewrite !skipn_all2 by lia. rewrite !firstn_nil. reflexivity.
Qed.

(** Python's slice is the run of the elements with the indices it names. *)
Lemma slice_records_in {A : Type} (l : list A) (a b : nat) :
  slice l a b = records_in l a b.
Proof.
  unfold slice. destruct (Nat.le_gt_cases a b) as [Hle|Hgt].
  - rewrite firstn_skipn_records_in. f_equal. lia.
  - unfold records_in. replace (b - a) with 0 by lia. reflexivity.
Qed.


(** ** Sequence lengths and reshaping *)

Section Reshape.

Context {V : Type}.

Lemma np_reshape_data (a r : ndarray V) (newshape : list nat) :
  np_reshape a newshape = Ok r ->
  nd_shape r = newshape /\ nd_data r = nd_data a.
Proof.
  unfold np_reshape.
  destruct (np_prod newshape =? length (nd_data a)); intros H;
    [|discriminate].
  injection H as <-. split; reflexivity.
Qed.








End Reshape.





(** ** Extraction and packaging *)




Section Assembly.

Context {V : Type}.
Variable self : H5DataSource V.

Local Abbreviation n := (num_data_points self).



(** The records a batch takes, by their indices. *)
Lemma extract_records_in (dataset : Dataset V) (start end_ : nat)
    (sweep_end : bool) :
  extract self dataset start end_ sweep_end
  = if sweep_end
    then records_in (ds_records dataset) start n
         ++ records_in (ds_records dataset) 0 end_
    else records_in (ds_records dataset) start end_.
Proof.
  unfold extract. rewrite !slice_records_in. reflexivity.
Qed.


Lemma reshape_loop_inv (elm_shape : list nat) (elm_size : nat) :
  forall (data res_data : list (ndarray V)) sample_count rs total,
    reshape_loop elm_shape elm_size data res_data sample_count
    = Ok (rs, total) ->
    exists out,
      rs = res_data ++ out /\
      map nd_data out = map nd_data data /\
      map nd_shape out
      = map (fun seq => np_prod (nd_shape seq) / elm_size :: elm_shape) data /\
      total = sample_count
              + list_sum (map (fun seq => np_prod (nd_shape seq) / elm_size)
                              data).
Proof.
  induction data as [|seq data IH]; intros res_data sample_count rs total H.
  - simpl in H. injection H as <- <-. exists []. simpl.
    rewrite app_nil_r. repeat split; lia.
  - simpl in H. apply bind_Ok_inv in H. destruct H as [[r len] [Hr H]].
    unfold reshape_seq in Hr. apply bind_Ok_inv in Hr.
    destruct Hr as [r' [Hr' Hr]]. injection Hr as -> <-.
    destruct (np_prod_is_float elm_shape); [discriminate|].
    apply np_reshape_data in Hr'. destruct Hr' as [Hshape Hdata].
    apply IH in H. destruct H as [out [Hrs [Hd [Hs Ht]]]].
    exists (r :: out). simpl.
    split; [rewrite Hrs, <- app_assoc; reflexivity|].
    split; [rewrite Hdata, Hd; reflexivity|].
    split; [rewrite Hshape, Hs; reflexivity | lia].
Qed.


Lemma stream_batch_inv (mydevice : DeviceDescriptor)
    (start end_ num_seq : nat) (sweep_end : bool)
    (name : string) (dataset : Dataset V)
    (entry : StreamInformation * MinibatchData V) :
  stream_batch self mydevice start end_ num_seq sweep_end name dataset
  = Ok entry ->
  packaged self start end_ num_seq sweep_end (name, dataset) entry.
Proof.
  unfold stream_batch, packaged. cbn [fst snd]. intros H.
  apply bind_Ok_inv in H. destruct H as [info [Hinfo H]].
  destruct (is_seq dataset) eqn:Hseq.
  - apply bind_Ok_inv in H. destruct H as [elm_shape [Hshape H]].
    apply bind_Ok_inv in H. destruct H as [[rs total] [Hloop H]].
    injection H as <-. cbn [fst snd].
    apply reshape_loop_inv in Hloop.
    destruct Hloop as [out [Hrs [Hd [Hs Ht]]]]. simpl in Hrs, Ht. subst rs.
    unfold payload. cbn.
    repeat split; try assumption; try discriminate.
    intros _. exists elm_shape. repeat split; assumption.
  - injection H as <-. unfold payload. cbn.
    repeat split; try assumption; try reflexivity. discriminate.
Qed.


Lemma batch_loop_inv (mydevice : DeviceDescriptor)
    (start end_ num_seq : nat) (sweep_end : bool) :
  forall items result result',
    batch_loop self mydevice start end_ num_seq sweep_end items result
    = Ok result' ->
    exists out,
      result' = result ++ out /\
      Forall2 (packaged self start end_ num_seq sweep_end) items out.
Proof.
  induction items as [|[name dataset] items IH]; intros result result' H.
  - simpl in H. injection H as <-. exists [].
    rewrite app_nil_r. split; [reflexivity | constructor].
  - simpl in H. apply bind_Ok_inv in H. destruct H as [entry [He H]].
    apply stream_batch_inv in He. apply IH in H.
    destruct H as [out [Hres Hall]].
    exists (entry :: out). split.
    + rewrite Hres, <- app_assoc. reflexivity.
    + constructor; assumption.
Qed.


End Assembly.

(** ** The batch request as a whole *)

Lemma Forall2_strengthen {A B : Type} (P : A -> Prop) (R R' : A -> B -> Prop)
    (l : list A) (l' : list B) :
  (forall x y, P x -> R x y -> R' x y) ->
  Forall P l -> Forall2 R l l' -> Forall2 R' l l'.
Proof.
  intros Himp HP HR. induction HR as [|x y l l' Hxy HR IH].
  - constructor.
  - inversion HP as [|? ? Hx HP']; subst.
    constructor; [apply Himp; assumption | apply IH; exact HP'].
Qed.

Lemma Forall2_right {A B : Type} (Q : B -> Prop) (R : A -> B -> Prop)
    (l : list A) (l' : list B) :
  (forall x y, R x y -> Q y) -> Forall2 R l l' -> Forall Q l'.
Proof.
  intros Himp HR. induction HR as [|x y l l' Hxy HR IH]; constructor;
    [eapply Himp; exact Hxy | exact IH].
Qed.

Section Request.

Context {V : Type}.
Variable self : H5DataSource V.
Variable fuel : nat.
Variable req : Z.
Variables number_of_workers worker_rank : nat.
Variable device_arg : option DeviceDescriptor.

Local Abbreviation n := (num_data_points self).
Local Abbreviation call :=
  (next_minibatch fuel self req number_of_workers worker_rank device_arg).

(** A call that returns a batch: the loop has stopped at some record, the
    cursor is there, and every stream got its batch for the same range. *)
Lemma next_minibatch_inv (self' : H5DataSource V)
    (result : list (StreamInformation * MinibatchData V)) :
  call = (self', Ok result) ->
  exists end_ total num_seq,
    select_loop fuel self req (next_idx self) 0 0 = Ok (end_, total, num_seq) /\
    self' = set_next_idx self end_ /\
    Forall2 (packaged self (next_idx self) end_ num_seq
               (negb (next_idx self <? end_)))
            (datagroup self) result.
Proof.
  unfold next_minibatch.
  destruct (select_loop fuel self req (next_idx self) 0 0)
    as [[[end_ total] num_seq]| |] eqn:Hsel; intros H;
    injection H as <- Hbatch; try discriminate.
  exists end_, total, num_seq.
  split; [reflexivity|]. split; [reflexivity|].
  apply batch_loop_inv in Hbatch. destruct Hbatch as [out [-> Hall]].
  simpl. replace (negb (next_idx self <? end_))
    with (if next_idx self <? end_ then false else true)
    by (destruct (next_idx self <? end_); reflexivity).
  exact Hall.
Qed.

Lemma select_loop_end_in_range (end_ total num_seq : nat) :
  next_idx self < n ->
  select_loop fuel self req (next_idx self) 0 0 = Ok (end_, total, num_seq) ->
  end_ < n.
Proof.
  intros Hcur Hsel. apply select_loop_inv in Hsel.
  destruct Hsel as [lens [_ [_ [He _]]]].
  rewrite He, iter_succ_record by exact Hcur.
  apply Nat.mod_upper_bound. lia.
Qed.

(** C2: in every batch returned, the sweep flag of every stream is set
    exactly when the cursor after the call is at or before the cursor before
    it; with the flag set the data of the stream are the records from the
    old cursor to the record count followed by the records before the new
    cursor, in their order; without it they are the records from the old
    cursor up to the new one. *)
Theorem next_minibatch_sweep_end (self' : H5DataSource V)
    (result : list (StreamInformation * MinibatchData V)) :
  call = (self', Ok result) ->
  Forall2 (follows_cursor (num_data_points self) (next_idx self)
             (next_idx self'))
          (datagroup self) result.
Proof.
  intros Hcall.
  destruct (next_minibatch_inv _ _ Hcall)
    as [end_ [total [num_seq [Hsel [-> Hall]]]]].
  cbn [next_idx set_next_idx].
  eapply Forall2_impl; [|exact Hall].
  intros item entry Hp.
  destruct Hp as [_ [_ [Hsw [Hpay [Hdense _]]]]].
  rewrite extract_records_in in Hpay, Hdense.
  unfold follows_cursor. cbv zeta. rewrite Hsw.
  destruct (next_idx self <? end_) eqn:E; cbn [negb] in *;
    [apply Nat.ltb_lt in E; rename E into Hlt
    |apply Nat.ltb_ge in E; rename E into Hge].
  - split; [split; [discriminate | lia]|].
    split; [discriminate|]. intros _.
    split; [exact Hpay | intros Hd; exact (proj1 (Hdense Hd))].
  - split; [split; [intros _; exact Hge | reflexivity]|].
    split; [|discriminate]. intros _.
    split; [exact Hpay | intros Hd; exact (proj1 (Hdense Hd))].
Qed.

(** C3: in every batch returned all streams are cut out of their arrays by
    the same start, end and sweep flag and carry the same record count and
    the same sweep flag; a sequence stream reports as its samples the sum of
    the sequence lengths of its extracted records, any other stream the
    number of records the selection counted. *)
Theorem next_minibatch_streams_agree (self' : H5DataSource V)
    (result : list (StreamInformation * MinibatchData V)) :
  call = (self', Ok result) ->
  exists end_ total num_seq sweep_end,
    select_loop fuel self req (next_idx self) 0 0 = Ok (end_, total, num_seq) /\
    next_idx self' = end_ /\
    Forall2 (packaged self (next_idx self) end_ num_seq sweep_end)
            (datagroup self) result.
Proof.
  intros Hcall.
  destruct (next_minibatch_inv _ _ Hcall)
    as [end_ [total [num_seq [Hsel [-> Hall]]]]].
  exists end_, total, num_seq, (negb (next_idx self <? end_)).
  split; [exact Hsel|]. split; [reflexivity | exact Hall].
Qed.




(** C10: the worker arguments are not looked at: two calls that differ
    only in them return the same batches, with the same record range, counts
    and sweep flags, and leave the same cursor. *)
Theorem next_minibatch_ignores_workers
    (number_of_workers' worker_rank' : nat) :
  next_minibatch fuel self req number_of_workers worker_rank device_arg
  = next_minibatch fuel self req number_of_workers' worker_rank' device_arg.
Proof.
  reflexivity.
Qed.

End Request.

(** ** The scenarios *)

Lemma ex_source_constructed : init ex_np_dtype ex_group cpu = Ok (ex_source 0).
Proof.
  reflexivity.
Qed.


Lemma ex_source_well_formed (cursor : nat) :
  cursor < 10 -> well_formed (ex_source cursor).
Proof.
  intros Hc. split; [exact Hc|]. split.
  - repeat constructor.
  - constructor; [|constructor; [|constructor]].
    + split; [eexists; reflexivity | discriminate].
    + split; [eexists; reflexivity|].
      intros _. exists [3]. split; [reflexivity|].
      repeat (constructor; [split; reflexivity|]). constructor.
Qed.

Lemma next_minibatch_sweep_end_witness :
  next_minibatch 5 (ex_source 8) 5 1 0 None
  = (fst ex_call_8_5, Ok (batch_of ex_call_8_5)) /\
  Forall2 (follows_cursor (num_data_points (ex_source 8))
             (next_idx (ex_source 8)) (next_idx (fst ex_call_8_5)))
          (datagroup (ex_source 8)) (batch_of ex_call_8_5).
Proof.
  assert (H : next_minibatch 5 (ex_source 8) 5 1 0 None
              = (fst ex_call_8_5, Ok (batch_of ex_call_8_5)))
    by (vm_compute; reflexivity).
  split; [exact H|].
  exact (next_minibatch_sweep_end (ex_source 8) 5 5 1 0 None _ _ H).
Defined.

Lemma next_minibatch_streams_agree_witness :
  next_minibatch 5 (ex_source 0) 7 1 0 None
  = (fst ex_call_0_7, Ok (batch_of ex_call_0_7)) /\
  exists end_ total num_seq sweep_end,
    select_loop 5 (ex_source 0) 7 (next_idx (ex_source 0)) 0 0
    = Ok (end_, total, num_seq) /\
    next_idx (fst ex_call_0_7) = end_ /\
    Forall2 (packaged (ex_source 0) (next_idx (ex_source 0)) end_ num_seq
               sweep_end)
            (datagroup (ex_source 0)) (batch_of ex_call_0_7).
Proof.
  assert (H : next_minibatch 5 (ex_source 0) 7 1 0 None
              = (fst ex_call_0_7, Ok (batch_of ex_call_0_7)))
    by (vm_compute; reflexivity).
  split; [exact H|].
  exact (next_minibatch_streams_agree (ex_source 0) 5 7 1 0 None _ _ H).
Defined.





(** ** Dictionaries *)

Lemma dict_set_fresh {A : Type} (d : list (string * A)) (k : string) (v : A) :
  ~ In k (map fst d) -> dict_set d k v = d ++ [(k, v)].
Proof.
  induction d as [|[k' v'] d IH]; intros Hk; simpl.
  - reflexivity.
  - destruct (String.eqb_spec k' k) as [->|Hne].
    + exfalso. apply Hk. left. reflexivity.
    + rewrite IH; [reflexivity|]. intros Hin. apply Hk. right. exact Hin.
Qed.

Lemma dict_get_nth {A : Type} (d : list (string * A)) :
  forall j k v,
    NoDup (map fst d) ->
    nth_error d j = Some (k, v) ->
    dict_get d k = Ok v.
Proof.
  induction d as [|[k' v'] d IH]; intros j k v Hnd Hnth.
  - destruct j; discriminate.
  - simpl in Hnd. inversion Hnd as [|? ? Hnotin Hnd']; subst.
    destruct j as [|j]; simpl in Hnth.
    + injection Hnth as -> ->. simpl. rewrite String.eqb_refl. reflexivity.
    + simpl. destruct (String.eqb_spec k' k) as [->|Hne].
      * exfalso. apply Hnotin.
        apply nth_error_In in Hnth. apply (in_map fst) in Hnth. exact Hnth.
      * eapply IH; eassumption.
Qed.

(** ** The catalog built by construction *)

Section Catalog.

Context {V : Type}.
Variable np_dtype : string -> option dtype.

(** One array with its metadata in order is entered in the catalog and the
    loop goes on. *)
Lemma init_loop_step (i : nat) (name : string) (ds : Dataset V) :
  metadata_ok np_dtype ds ->
  exists info,
    catalogued np_dtype i (name, ds) info /\
    forall items infos ndp,
      init_loop np_dtype i ((name, ds) :: items) infos ndp
      = init_loop np_dtype (S i) items (dict_set infos name info)
          (Some (length (ds_records ds))).
Proof.
  intros Hmeta. unfold metadata_ok in Hmeta.
  destruct (is_seq ds) eqn:Hseq.
  - destruct (Hmeta eq_refl) as [sh [s [t [Hsh [Hs Ht]]]]].
    exists (mkStreamInformation name i "dense" t sh). split.
    + unfold catalogued. cbn [fst snd si_name si_id si_storage_format
                                si_shape si_dtype].
      split; [reflexivity|]. split; [reflexivity|]. split; [reflexivity|].
      split; [rewrite Hseq; discriminate|]. intros _.
      split; [exact Hsh|]. exists s. split; assumption.
    + intros items infos ndp. cbn [init_loop]. rewrite Hseq.
      unfold dataset_shape_, attrs_shape, attrs_dtype.
      rewrite Hsh, Hs. cbn [bind]. rewrite Ht. reflexivity.
  - exists (mkStreamInformation name i "dense" (ds_dtype ds)
              (ds_inner_shape ds)). split.
    + unfold catalogued. cbn [fst snd si_name si_id si_storage_format
                                si_shape si_dtype].
      split; [reflexivity|]. split; [reflexivity|]. split; [reflexivity|].
      split; [intros _; split; reflexivity | rewrite Hseq; discriminate].
    + intros items infos ndp. cbn [init_loop]. rewrite Hseq.
      reflexivity.
Qed.

(** One array whose metadata are not in order stops the loop with the
    exception of the first thing found missing. *)
Lemma init_loop_stop (i : nat) (name : string) (ds : Dataset V) :
  ~ metadata_ok np_dtype ds ->
  exists e,
    schema_error e /\
    forall items infos ndp,
      init_loop np_dtype i ((name, ds) :: items) infos ndp = Raise e.
Proof.
  intros Hmeta. unfold metadata_ok in Hmeta.
  destruct (is_seq ds) eqn:Hseq;
    [|exfalso; apply Hmeta; discriminate].
  destruct (attr_shape (ds_attrs ds)) as [sh|] eqn:Hsh.
  - destruct (attr_dtype (ds_attrs ds)) as [s|] eqn:Hs.
    + destruct (np_dtype s) as [t|] eqn:Ht.
      * exfalso. apply Hmeta. intros _. exists sh, s, t.
        repeat split; assumption || reflexivity.
      * exists TypeError. split; [right; right; reflexivity|].
        intros items infos ndp. cbn [init_loop]. rewrite Hseq.
        unfold dataset_shape_, attrs_shape, attrs_dtype.
        rewrite Hsh, Hs. cbn [bind]. rewrite Ht. reflexivity.
    + exists (KeyError "dtype"). split; [right; left; reflexivity|].
      intros items infos ndp. cbn [init_loop]. rewrite Hseq.
      unfold dataset_shape_, attrs_shape, attrs_dtype.
      rewrite Hsh, Hs. reflexivity.
  - exists (KeyError "shape"). split; [left; reflexivity|].
    intros items infos ndp. cbn [init_loop]. rewrite Hseq.
    unfold dataset_shape_, attrs_shape. rewrite Hsh. reflexivity.
Qed.

Lemma metadata_ok_dec (ds : Dataset V) : metadata_ok np_dtype ds \/ ~ metadata_ok np_dtype ds.
Proof.
  unfold metadata_ok.
  destruct (is_seq ds); [|left; discriminate].
  destruct (attr_shape (ds_attrs ds)) as [sh|];
    [|right; intros H; destruct (H eq_refl) as [? [? [? [H1 _]]]];
      discriminate].
  destruct (attr_dtype (ds_attrs ds)) as [s|];
    [|right; intros H; destruct (H eq_refl) as [? [? [? [_ [H1 _]]]]];
      discriminate].
  destruct (np_dtype s) as [t|] eqn:Ht.
  - left. intros _. exists sh, s, t. repeat split; assumption || reflexivity.
  - right. intros H. destruct (H eq_refl) as [? [s' [? [_ [H1 H2]]]]].
    injection H1 as <-. rewrite Ht in H2. discriminate.
Qed.

(** The loop returns exactly when all its arrays have their metadata in
    order, and any exception it raises is one of the three. *)
Lemma init_loop_outcome :
  forall (items : list (string * Dataset V)) i infos ndp,
    (Forall (fun item => metadata_ok np_dtype (snd item)) items /\
     exists r, init_loop np_dtype i items infos ndp = Ok r) \/
    (~ Forall (fun item => metadata_ok np_dtype (snd item)) items /\
     exists e, schema_error e /\ init_loop np_dtype i items infos ndp = Raise e).
Proof.
  induction items as [|[name ds] items IH]; intros i infos ndp.
  - left. split; [constructor | eexists; reflexivity].
  - destruct (metadata_ok_dec ds) as [Hok|Hbad].
    + destruct (init_loop_step i name ds Hok) as [info [_ Hstep]].
      rewrite Hstep.
      destruct (IH (S i) (dict_set infos name info)
                  (Some (length (ds_records ds))))
        as [[Hall Hr]|[Hnall He]].
      * left. split; [constructor; assumption | exact Hr].
      * right. split; [|exact He].
        intros Hall. apply Hnall. inversion Hall; assumption.
    + destruct (init_loop_stop i name ds Hbad) as [e [Hcls Hstop]].
      right. split.
      * intros Hall. apply Hbad. inversion Hall; assumption.
      * exists e. split; [exact Hcls | apply Hstop].
Qed.

(** The catalog the loop returns over arrays of distinct names that are not
    yet in it: the one it started from, followed by the entries of the
    arrays in their order. *)
Lemma init_loop_catalogue :
  forall (items : list (string * Dataset V)) i infos ndp infos' ndp',
    NoDup (map fst items) ->
    (forall k, In k (map fst items) -> ~ In k (map fst infos)) ->
    init_loop np_dtype i items infos ndp = Ok (infos', ndp') ->
    exists entries,
      infos' = infos ++ entries /\ catalogue_from np_dtype i items entries.
Proof.
  induction items as [|[name ds] items IH];
    intros i infos ndp infos' ndp' Hnd Hfresh H.
  - simpl in H. injection H as <- _. exists [].
    rewrite app_nil_r. split; [reflexivity | exact I].
  - destruct (metadata_ok_dec ds) as [Hok|Hbad].
    + destruct (init_loop_step i name ds Hok) as [info [Hcat Hstep]].
      rewrite Hstep in H.
      simpl in Hnd. inversion Hnd as [|? ? Hnotin Hnd']; subst.
      rewrite dict_set_fresh in H by (apply Hfresh; left; reflexivity).
      apply IH in H.
      * destruct H as [entries [-> Hent]].
        exists ((name, info) :: entries). split.
        -- rewrite <- app_assoc. reflexivity.
        -- cbn [catalogue_from].
           split; [reflexivity | split; assumption].
      * exact Hnd'.
      * intros k Hk Hin. rewrite map_app in Hin. apply in_app_or in Hin.
        destruct Hin as [Hin|[<-|[]]].
        -- apply (Hfresh k); [right; exact Hk | exact Hin].
        -- apply Hnotin. exact Hk.
    + destruct (init_loop_stop i name ds Hbad) as [e [_ Hstop]].
      rewrite Hstop in H. discriminate.
Qed.

Lemma catalogue_from_names :
  forall (items : list (string * Dataset V)) i entries,
    catalogue_from np_dtype i items entries -> map fst entries = map fst items.
Proof.
  induction items as [|item items IH]; intros i [|[k info] entries] H;
    simpl in H; try contradiction.
  - reflexivity.
  - destruct H as [-> [_ H]]. simpl. f_equal. eapply IH; exact H.
Qed.

Lemma catalogue_from_nth :
  forall (items : list (string * Dataset V)) i entries j item,
    catalogue_from np_dtype i items entries ->
    nth_error items j = Some item ->
    exists info,
      nth_error entries j = Some (fst item, info) /\
      catalogued np_dtype (i + j) item info.
Proof.
  induction items as [|item0 items IH]; intros i [|[k info] entries] j item H Hj;
    simpl in H; try contradiction.
  - destruct j; discriminate.
  - destruct H as [-> [Hcat H]]. destruct j as [|j]; simpl in Hj.
    + injection Hj as <-. exists info. rewrite Nat.add_0_r.
      split; [reflexivity | exact Hcat].
    + destruct (IH (S i) entries j item H Hj) as [info' [Hn Hc]].
      exists info'. split; [exact Hn|].
      replace (i + S j) with (S i + j) by lia. exact Hc.
Qed.

Lemma catalogue_from_ids :
  forall (items : list (string * Dataset V)) i entries,
    catalogue_from np_dtype i items entries ->
    map (fun e => si_name (snd e)) entries = map fst items /\
    map (fun e => si_id (snd e)) entries = seq i (length items).
Proof.
  induction items as [|item items IH]; intros i [|[k info] entries] H;
    simpl in H; try contradiction.
  - split; reflexivity.
  - destruct H as [_ [[Hname [Hid _]] H]].
    destruct (IH (S i) entries H) as [Hn Hi]. simpl.
    rewrite Hname, Hid, Hn, Hi. split; reflexivity.
Qed.

(** The source a successful construction returns. *)
Lemma init_catalogue (datagroup0 : list (string * Dataset V))
    (device0 : DeviceDescriptor) (self : H5DataSource V) :
  NoDup (map fst datagroup0) ->
  init np_dtype datagroup0 device0 = Ok self ->
  datagroup self = datagroup0 /\
  catalogue_from np_dtype 0 datagroup0 (stream_info_mapping self).
Proof.
  intros Hnd H. unfold init in H. apply bind_Ok_inv in H.
  destruct H as [[infos ndp] [Hloop H]].
  apply init_loop_catalogue in Hloop; [|exact Hnd | intros k _ []].
  destruct Hloop as [entries [-> Hcat]]. simpl in Hcat.
  destruct ndp as [n|]; [|discriminate].
  injection H as <-. split; [reflexivity | exact Hcat].
Qed.

End Catalog.

Section ConstructionProperties.

Context {V : Type}.
Variable np_dtype : string -> option dtype.

Lemma init_loop_counts (items : list (string * Dataset V)) :
  items <> [] ->
  forall i infos ndp infos' ndp',
    init_loop np_dtype i items infos ndp = Ok (infos', ndp') ->
    exists name ds, In (name, ds) items /\
                    ndp' = Some (length (ds_records ds)).
Proof.
  intros Hne i infos ndp infos' ndp' H.
  destruct (exists_last Hne) as [items' [[name ds] ->]].
  apply init_loop_counts_last in H.
  exists name, ds. split; [|exact H].
  apply in_or_app. right. left. reflexivity.
Qed.

(** X1: Construction has three outcomes.  Over an empty data group it raises
    [UnboundLocalError], the record count never having been set.  Over a
    data group whose sequence arrays all declare an element shape and an
    element type that numpy understands, it returns a source.  Otherwise it
    raises the [KeyError] or [TypeError] of the first thing found wrong. *)
Theorem init_outcome (datagroup0 : list (string * Dataset V))
    (device0 : DeviceDescriptor) :
  (datagroup0 = [] /\
   init np_dtype datagroup0 device0
   = Raise (UnboundLocalError "num_data_points")) \/
  (datagroup0 <> [] /\
   Forall (fun item => metadata_ok np_dtype (snd item)) datagroup0 /\
   exists self, init np_dtype datagroup0 device0 = Ok self) \/
  (~ Forall (fun item => metadata_ok np_dtype (snd item)) datagroup0 /\
   exists e, schema_error e /\ init np_dtype datagroup0 device0 = Raise e).
Proof.
  destruct datagroup0 as [|item items].
  - left. split; reflexivity.
  - right.
    destruct (init_loop_outcome np_dtype (item :: items) 0 [] None)
      as [[Hall [[infos ndp] Hr]]|[Hnall [e [Hcls He]]]].
    + left. split; [discriminate|]. split; [exact Hall|].
      assert (Hne : item :: items <> []) by discriminate.
      destruct (init_loop_counts (item :: items) Hne _ _ _ _ _ Hr)
        as [name [ds [_ ->]]].
      eexists. unfold init. rewrite Hr. reflexivity.
    + right. split; [exact Hnall|]. exists e. split; [exact Hcls|].
      unfold init. rewrite He. reflexivity.
Qed.

(** X2: The catalog of a constructed source has, for the array at position [j]
    of a data group of distinct names, an entry at position [j] under the
    name of the array, which is the entry a lookup of the name gives; it
    carries the name, the ordinal [j], dense storage, and the element shape
    and type: those declared in the attributes of a sequence array, the
    native ones of any other array. *)
Theorem init_catalog_entry (datagroup0 : list (string * Dataset V))
    (device0 : DeviceDescriptor) (self : H5DataSource V)
    (j : nat) (name : string) (ds : Dataset V) :
  NoDup (map fst datagroup0) ->
  init np_dtype datagroup0 device0 = Ok self ->
  nth_error datagroup0 j = Some (name, ds) ->
  exists info,
    nth_error (stream_info_mapping self) j = Some (name, info) /\
    dict_get (stream_info_mapping self) name = Ok info /\
    catalogued np_dtype j (name, ds) info.
Proof.
  intros Hnd Hinit Hj.
  destruct (init_catalogue np_dtype _ _ _ Hnd Hinit) as [_ Hcat].
  destruct (catalogue_from_nth _ _ _ _ _ _ Hcat Hj) as [info [Hn Hc]].
  exists info. split; [exact Hn|]. split; [|exact Hc].
  eapply dict_get_nth; [|exact Hn].
  rewrite (catalogue_from_names _ _ _ _ Hcat). exact Hnd.
Qed.

(** X3: [stream_infos] of a constructed source lists one stream per array of
    the data group, in the order of the data group: the names are those of
    the arrays and the ordinals count up from 0. *)
Theorem stream_infos_listing (datagroup0 : list (string * Dataset V))
    (device0 : DeviceDescriptor) (self : H5DataSource V) :
  NoDup (map fst datagroup0) ->
  init np_dtype datagroup0 device0 = Ok self ->
  map si_name (stream_infos self) = map fst datagroup0 /\
  map si_id (stream_infos self) = seq 0 (length datagroup0).
Proof.
  intros Hnd Hinit.
  destruct (init_catalogue np_dtype _ _ _ Hnd Hinit) as [_ Hcat].
  destruct (catalogue_from_ids _ _ _ _ Hcat) as [Hn Hi].
  unfold stream_infos. rewrite !map_map. split; assumption.
Qed.

End ConstructionProperties.

Lemma ex_group_names : NoDup (map fst ex_group).
Proof.
  repeat constructor; simpl; intuition discriminate.
Qed.

Lemma init_catalog_entry_witness :
  NoDup (map fst ex_group) /\
  init ex_np_dtype ex_group cpu = Ok (ex_source 0) /\
  nth_error ex_group 1 = Some ("seq"%string, ex_seq) /\
  exists info,
    nth_error (stream_info_mapping (ex_source 0)) 1
    = Some ("seq"%string, info) /\
    dict_get (stream_info_mapping (ex_source 0)) "seq" = Ok info /\
    catalogued ex_np_dtype 1 ("seq"%string, ex_seq) info.
Proof.
  split; [exact ex_group_names|].
  split; [exact ex_source_constructed|]. split; [reflexivity|].
  exact (init_catalog_entry ex_np_dtype ex_group cpu (ex_source 0) 1
           "seq" ex_seq ex_group_names ex_source_constructed eq_refl).
Defined.

Lemma stream_infos_listing_witness :
  NoDup (map fst ex_group) /\
  init ex_np_dtype ex_group cpu = Ok (ex_source 0) /\
  map si_name (stream_infos (ex_source 0)) = map fst ex_group /\
  map si_id (stream_infos (ex_source 0)) = seq 0 (length ex_group).
Proof.
  split; [exact ex_group_names|]. split; [exact ex_source_constructed|].
  exact (stream_infos_listing ex_np_dtype ex_group cpu (ex_source 0)
           ex_group_names ex_source_constructed).
Defined.

(** ** Sample counts of a record *)

Lemma list_sum_cons (a : nat) (l : list nat) :
  list_sum (a :: l) = a + list_sum l.
Proof.
  reflexivity.
Qed.

Lemma list_sum_split_last (l : list nat) :
  l <> [] ->
  list_sum l = list_sum (firstn (length l - 1) l) + nth (length l - 1) l 0.
Proof.
  induction l as [|a l IH]; intros Hne; [contradiction|].
  destruct l as [|b l].
  - simpl. lia.
  - replace (length (a :: b :: l) - 1) with (S (length (b :: l) - 1))
      by (simpl; lia).
    change (firstn (S (length (b :: l) - 1)) (a :: b :: l))
      with (a :: firstn (length (b :: l) - 1) (b :: l)).
    change (nth (S (length (b :: l) - 1)) (a :: b :: l) 0)
      with (nth (length (b :: l) - 1) (b :: l) 0).
    rewrite !list_sum_cons. rewrite (list_sum_cons b l) in IH.
    rewrite IH by discriminate. lia.
Qed.

Lemma list_sum_firstn_ge (l : list nat) :
  (forall j, j < length l -> 1 <= nth j l 0) ->
  forall j, j <= length l -> j <= list_sum (firstn j l).
Proof.
  induction l as [|a l IH]; intros Hl j Hj.
  - simpl in Hj. replace j with 0 by lia. simpl. lia.
  - destruct j as [|j]; [simpl; lia|].
    change (firstn (S j) (a :: l)) with (a :: firstn j l).
    rewrite list_sum_cons.
    pose proof (Hl 0 ltac:(simpl; lia)) as Ha. simpl in Ha.
    assert (j <= list_sum (firstn j l)).
    { apply IH; [|simpl in Hj; lia].
      intros i Hi. apply (Hl (S i)). simpl. lia. }
    lia.
Qed.

Lemma list_sum_le_bound (l : list nat) (M : nat) :
  (forall j, j < length l -> nth j l 0 <= M) ->
  list_sum l <= length l * M.
Proof.
  induction l as [|a l IH]; intros Hl.
  - simpl. lia.
  - pose proof (Hl 0 ltac:(simpl; lia)) as Ha. simpl in Ha.
    assert (list_sum l <= length l * M).
    { apply IH. intros i Hi. apply (Hl (S i)). simpl. lia. }
    rewrite list_sum_cons. cbn [length]. lia.
Qed.

Lemma list_sum_le_pointwise :
  forall l1 l2 : list nat,
    length l1 = length l2 ->
    (forall j, j < length l1 -> nth j l1 0 <= nth j l2 0) ->
    list_sum l1 <= list_sum l2.
Proof.
  induction l1 as [|a l1 IH]; intros [|b l2] Hlen Hle;
    try discriminate.
  - simpl. lia.
  - pose proof (Hle 0 ltac:(simpl; lia)) as Hab. simpl in Hab.
    assert (list_sum l1 <= list_sum l2).
    { apply IH; [simpl in Hlen; lia|].
      intros j Hj. apply (Hle (S j)). simpl. lia. }
    rewrite !list_sum_cons. lia.
Qed.

Section SampleCounts.

Context {V : Type}.
Variable self : H5DataSource V.

(** X5: The sample count of a record is an error in two cases only, both of a
    sequence stream: the element shape is not declared, or the index is
    past the last record.  A stream that is not a sequence counts one
    sample for any index, the record itself never being read. *)
Theorem sample_count_raises_iff (dataset : Dataset V) (data_idx : nat) :
  (raises (sample_count_ dataset data_idx) <->
   is_seq dataset = true /\
   (attr_shape (ds_attrs dataset) = None \/
    length (ds_records dataset) <= data_idx)) /\
  (is_seq dataset = false -> sample_count_ dataset data_idx = Ok 1) /\
  sample_count_ dataset data_idx <> OutOfFuel.
Proof.
  unfold sample_count_, attrs_shape, ds_getitem, raises.
  destruct (is_seq dataset).
  - destruct (attr_shape (ds_attrs dataset)) as [sh|]; cbn [bind].
    + destruct (nth_error (ds_records dataset) data_idx) as [seq|] eqn:Hnth;
        cbn [bind].
      * assert (Hlt : data_idx < length (ds_records dataset))
          by (apply nth_error_Some; rewrite Hnth; discriminate).
        split; [split|split].
        -- intros [e He]. discriminate.
        -- intros [_ [H|H]]; [discriminate | lia].
        -- discriminate.
        -- discriminate.
      * apply nth_error_None in Hnth.
        split; [split|split].
        -- intros _. split; [reflexivity | right; exact Hnth].
        -- intros _. eexists; reflexivity.
        -- discriminate.
        -- discriminate.
    + split; [split|split].
      * intros _. split; [reflexivity | left; reflexivity].
      * intros _. eexists; reflexivity.
      * discriminate.
      * discriminate.
  - split; [split|split].
    + intros [e He]. discriminate.
    + intros [H _]. discriminate.
    + reflexivity.
    + discriminate.
Qed.

Lemma sample_count_not_cut_off (dataset : Dataset V) (data_idx : nat) :
  sample_count_ dataset data_idx <> OutOfFuel.
Proof.
  unfold sample_count_, attrs_shape, ds_getitem.
  destruct (is_seq dataset); [|discriminate].
  destruct (attr_shape (ds_attrs dataset)); cbn [bind]; [|discriminate].
  destruct (nth_error (ds_records dataset) data_idx); discriminate.
Qed.

Lemma dict_get_not_cut_off {A : Type} (d : list (string * A)) (k : string) :
  dict_get d k <> OutOfFuel.
Proof.
  induction d as [|[k' v] d IH]; simpl; [discriminate|].
  destruct (String.eqb k' k); [discriminate | exact IH].
Qed.

Lemma max_seq_len_not_cut_off (idx : nat) :
  max_seq_len_ self idx <> OutOfFuel.
Proof.
  unfold max_seq_len_. generalize 0 as mx_len.
  induction (datagroup self) as [|[name ds] items IH]; intros mx_len.
  - discriminate.
  - simpl.
    destruct (dict_get (stream_info_mapping self) name) as [info| |] eqn:Hd;
      cbn [bind];
      [|discriminate | exfalso; exact (dict_get_not_cut_off _ _ Hd)].
    destruct (sample_count_ ds idx) as [c| |] eqn:Hc;
      cbn [bind];
      [|discriminate | exfalso; exact (sample_count_not_cut_off _ _ Hc)].
    apply IH.
Qed.

Lemma max_seq_len_loop_inv :
  forall (items : list (string * Dataset V)) idx mx_len m,
    max_seq_len_loop self items idx mx_len = Ok m ->
    mx_len <= m /\
    Forall (fun item =>
              exists c, sample_count_ (snd item) idx = Ok c /\ c <= m) items /\
    (m = mx_len \/
     exists item, In item items /\ sample_count_ (snd item) idx = Ok m).
Proof.
  induction items as [|[name ds] items IH]; intros idx mx_len m H.
  - simpl in H. injection H as <-.
    split; [lia|]. split; [constructor | left; reflexivity].
  - simpl in H. apply bind_Ok_inv in H. destruct H as [info [_ H]].
    apply bind_Ok_inv in H. destruct H as [c [Hc H]].
    apply IH in H. destruct H as [Hle [Hall Hatt]].
    split; [lia|]. split.
    + constructor; [|exact Hall]. exists c. split; [exact Hc | lia].
    + destruct Hatt as [->|[item [Hin Hm]]].
      * destruct (Nat.max_spec mx_len c) as [[_ ->]|[_ ->]].
        -- right. exists (name, ds). split; [left; reflexivity | exact Hc].
        -- left. reflexivity.
      * right. exists item. split; [right; exact Hin | exact Hm].
Qed.

(** X6: [max_seq_len_] returns the largest sample count that record [idx] has
    in any stream: no stream counts more, some stream counts as much (or
    the result is 0), and the result is at least 1 as soon as the data
    group has a stream that is not a sequence. *)
Theorem max_seq_len_is_maximum (idx m : nat) :
  max_seq_len_ self idx = Ok m ->
  Forall (fun item =>
            exists c, sample_count_ (snd item) idx = Ok c /\ c <= m)
         (datagroup self) /\
  (m = 0 \/
   exists item, In item (datagroup self) /\
                sample_count_ (snd item) idx = Ok m) /\
  ((exists item, In item (datagroup self) /\ is_seq (snd item) = false) ->
   1 <= m).
Proof.
  intros H. apply max_seq_len_loop_inv in H.
  destruct H as [_ [Hall Hatt]].
  split; [exact Hall|]. split; [exact Hatt|].
  intros [item [Hin Hdense]].
  rewrite Forall_forall in Hall. destruct (Hall item Hin) as [c [Hc Hle]].
  unfold sample_count_ in Hc. rewrite Hdense in Hc. injection Hc as <-.
  exact Hle.
Qed.



End SampleCounts.

Lemma max_seq_len_is_maximum_witness :
  max_seq_len_ (ex_source 0) 2 = Ok 4 /\
  Forall (fun item : string * Dataset Z =>
            exists c, sample_count_ (snd item) 2 = Ok c /\ c <= 4)
         (datagroup (ex_source 0)) /\
  (4 = 0 \/
   exists item, In item (datagroup (ex_source 0)) /\
                sample_count_ (snd item) 2 = Ok 4) /\
  ((exists item, In item (datagroup (ex_source 0)) /\
                 is_seq (snd item) = false) ->
   1 <= 4).
Proof.
  assert (H : max_seq_len_ (ex_source 0) 2 = Ok 4) by reflexivity.
  split; [exact H|].
  exact (max_seq_len_is_maximum (ex_source 0) 2 4 H).
Defined.

(** ** The budget and the source across a call *)

Section Budget.

Context {V : Type}.
Variable self : H5DataSource V.
Variable fuel : nat.
Variable req : Z.
Variables number_of_workers worker_rank : nat.
Variable device_arg : option DeviceDescriptor.

Local Abbreviation n := (num_data_points self).
Local Abbreviation call :=
  (next_minibatch fuel self req number_of_workers worker_rank device_arg).

(** X8: When every record counts for at least 1 and at most [M] samples, a
    selection for a positive budget ends on a total that reaches the budget
    and overshoots it by less than [M], and it takes at most as many
    records as the budget has samples and at least the budget divided by
    [M]. *)
Theorem select_loop_budget_bounds (end_ total num_seq M : nat) :
  (0 < req)%Z ->
  next_idx self < num_data_points self ->
  (forall i m, i < num_data_points self ->
               max_seq_len_ self i = Ok m -> 1 <= m <= M) ->
  select_loop fuel self req (next_idx self) 0 0 = Ok (end_, total, num_seq) ->
  (req <= Z.of_nat total < req + Z.of_nat M)%Z /\
  (Z.of_nat num_seq <= req <= Z.of_nat (num_seq * M))%Z.
Proof.
  intros Hreq Hcur Hbound Hsel. apply select_loop_inv in Hsel.
  destruct Hsel as [lens [Hk [Htot [_ [Hmax [Hpre [Hfin _]]]]]]].
  simpl in Hk, Htot. subst num_seq total.
  assert (Hne : lens <> []).
  { intros ->. simpl in Hfin. lia. }
  assert (Hlen : 1 <= length lens).
  { destruct lens; [contradiction | simpl; lia]. }
  assert (Hrange : forall j, j < length lens -> 1 <= nth j lens 0 <= M).
  { intros j Hj. apply (Hbound (Nat.iter j (succ_record self) (next_idx self))).
    - rewrite iter_succ_record by exact Hcur.
      apply Nat.mod_upper_bound. lia.
    - apply Hmax. exact Hj. }
  pose proof (list_sum_split_last lens Hne) as Hsplit.
  pose proof (Hpre (length lens - 1) ltac:(lia)) as Hbefore.
  simpl in Hbefore.
  pose proof (Hrange (length lens - 1) ltac:(lia)) as Hlast.
  pose proof (list_sum_firstn_ge lens (fun j Hj => proj1 (Hrange j Hj))
                (length lens - 1) ltac:(lia)) as Hcount.
  pose proof (list_sum_le_bound lens M (fun j Hj => proj2 (Hrange j Hj)))
    as Hupper.
  split; split; lia.
Qed.

(** X9: a call leaves a well-formed source well formed, whether it returns a
    batch, raises, or is cut off: the cursor stays inside the data set and
    nothing but the cursor is written. *)
Theorem next_minibatch_keeps_well_formed :
  well_formed self ->
  well_formed (fst call) /\
  datagroup (fst call) = datagroup self /\
  stream_info_mapping (fst call) = stream_info_mapping self /\
  num_data_points (fst call) = num_data_points self /\
  device (fst call) = device self.
Proof.
  intros [Hcur [Hal Hok]]. unfold next_minibatch.
  destruct (select_loop fuel self req (next_idx self) 0 0)
    as [[[end_ total] num_seq]| |] eqn:Hsel; cbn [fst];
    try (repeat split; assumption).
  pose proof (select_loop_end_in_range self fuel req _ _ _ Hcur Hsel) as Hend.
  repeat split; assumption.
Qed.


End Budget.

Lemma ex_source_bounds (cursor i m : nat) :
  i < num_data_points (ex_source cursor) ->
  max_seq_len_ (ex_source cursor) i = Ok m -> 1 <= m <= 4.
Proof.
  intros Hi. change (num_data_points (ex_source cursor)) with 10 in Hi.
  do 10 (destruct i as [|i];
         [vm_compute; intros H; injection H as <-; lia|]).
  lia.
Qed.

Lemma select_loop_budget_bounds_witness :
  (0 < 7)%Z /\
  next_idx (ex_source 0) < num_data_points (ex_source 0) /\
  select_loop 5 (ex_source 0) 7 (next_idx (ex_source 0)) 0 0 = Ok (3, 9, 3) /\
  (7 <= Z.of_nat 9 < 7 + Z.of_nat 4)%Z /\
  (Z.of_nat 3 <= 7 <= Z.of_nat (3 * 4))%Z.
Proof.
  assert (H1 : (0 < 7)%Z) by lia.
  assert (H2 : next_idx (ex_source 0) < num_data_points (ex_source 0))
    by (vm_compute; lia).
  assert (H3 : select_loop 5 (ex_source 0) 7 (next_idx (ex_source 0)) 0 0
               = Ok (3, 9, 3)) by (vm_compute; reflexivity).
  split; [exact H1|]. split; [exact H2|]. split; [exact H3|].
  exact (select_loop_budget_bounds (ex_source 0) 5 7 3 9 3 4 H1 H2
           (ex_source_bounds 0) H3).
Defined.

Lemma next_minibatch_keeps_well_formed_witness :
  well_formed (ex_source 8) /\
  well_formed (fst (next_minibatch 5 (ex_source 8) 5 1 0 None)) /\
  datagroup (fst (next_minibatch 5 (ex_source 8) 5 1 0 None))
  = datagroup (ex_source 8) /\
  stream_info_mapping (fst (next_minibatch 5 (ex_source 8) 5 1 0 None))
  = stream_info_mapping (ex_source 8) /\
  num_data_points (fst (next_minibatch 5 (ex_source 8) 5 1 0 None))
  = num_data_points (ex_source 8) /\
  device (fst (next_minibatch 5 (ex_source 8) 5 1 0 None))
  = device (ex_source 8).
Proof.
  assert (H : well_formed (ex_source 8))
    by (apply ex_source_well_formed; lia).
  split; [exact H|].
  exact (next_minibatch_keeps_well_formed (ex_source 8) 5 5 1 0 None H).
Defined.


(** ** The records of a batch within one sweep *)

Lemma nth_error_slice {A : Type} (l : list A) (a b j : nat) :
  nth_error (slice l a b) j
  = if j <? b - a then nth_error l (a + j) else None.
Proof.
  unfold slice. rewrite nth_error_firstn, nth_error_skipn. reflexivity.
Qed.

Lemma mod_wrapped (a n : nat) :
  n <= a -> a < 2 * n -> a mod n = a - n.
Proof.
  intros Hge Hlt. replace a with ((a - n) + 1 * n) at 1 by lia.
  rewrite Nat.Div0.mod_add. apply Nat.mod_small. lia.
Qed.

Lemma wrap_iff (start k n : nat) :
  start < n -> 1 <= k <= n ->
  ((start + k) mod n <= start <-> n <= start + k).
Proof.
  intros Hs Hk. destruct (Nat.lt_ge_cases (start + k) n) as [Hlt|Hge].
  - rewrite Nat.mod_small by exact Hlt. lia.
  - rewrite mod_wrapped by lia. lia.
Qed.

Section SingleSweep.

Context {V : Type}.
Variable self : H5DataSource V.

Local Abbreviation n := (num_data_points self).

(** Taking [k] records, at most all of them, from [start]: the extraction
    for the end the loop reaches and the flag it sets gives the [k] records
    the loop went through, in that order. *)
Lemma extract_visits (dataset : Dataset V) (start k : nat) :
  length (ds_records dataset) = n ->
  start < n ->
  1 <= k <= n ->
  length (extract self dataset start ((start + k) mod n)
            (negb (start <? (start + k) mod n))) = k /\
  forall j, j < k ->
    nth_error (extract self dataset start ((start + k) mod n)
                 (negb (start <? (start + k) mod n))) j
    = nth_error (ds_records dataset) ((start + j) mod n).
Proof.
  intros Hlen Hs Hk. unfold extract.
  destruct (Nat.lt_ge_cases (start + k) n) as [Hlt|Hge].
  - rewrite (Nat.mod_small (start + k) n) by exact Hlt.
    replace (start <? start + k) with true
      by (symmetry; apply Nat.ltb_lt; lia).
    cbn [negb]. split.
    + rewrite slice_length by lia. lia.
    + intros j Hj. rewrite nth_error_slice.
      replace (j <? start + k - start) with true
        by (symmetry; apply Nat.ltb_lt; lia).
      rewrite Nat.mod_small by lia. reflexivity.
  - rewrite (mod_wrapped (start + k) n) by lia.
    replace (start <? start + k - n) with false
      by (symmetry; apply Nat.ltb_ge; lia).
    cbn [negb]. split.
    + rewrite length_app, !slice_length by lia. lia.
    + intros j Hj. rewrite nth_error_app, slice_length by lia.
      destruct (Nat.ltb_spec j (n - start)) as [Hj1|Hj2].
      * rewrite nth_error_slice.
        replace (j <? n - start) with true
          by (symmetry; apply Nat.ltb_lt; lia).
        rewrite Nat.mod_small by lia. reflexivity.
      * rewrite nth_error_slice.
        replace (j - (n - start) <? start + k - n - 0) with true
          by (symmetry; apply Nat.ltb_lt; lia).
        rewrite (mod_wrapped (start + j) n) by lia.
        f_equal. lia.
Qed.

End SingleSweep.

Section Walk.

Context {V : Type}.
Variable self : H5DataSource V.
Variable fuel : nat.
Variable req : Z.
Variables number_of_workers worker_rank : nat.
Variable device_arg : option DeviceDescriptor.

Local Abbreviation n := (num_data_points self).
Local Abbreviation call :=
  (next_minibatch fuel self req number_of_workers worker_rank device_arg).

(** A call that returns a batch, seen from the records: the loop counted
    [num_seq] records and went through them from the cursor on, the cursor
    is behind them, and every stream was packaged for that range. *)
Lemma next_minibatch_walk (self' : H5DataSource V)
    (result : list (StreamInformation * MinibatchData V)) :
  next_idx self < n ->
  call = (self', Ok result) ->
  exists total num_seq (lens : list nat),
    select_loop fuel self req (next_idx self) 0 0
    = Ok ((next_idx self + num_seq) mod n, total, num_seq) /\
    self' = set_next_idx self ((next_idx self + num_seq) mod n) /\
    length lens = num_seq /\
    total = list_sum lens /\
    (forall j, j < num_seq ->
       max_seq_len_ self ((next_idx self + j) mod n) = Ok (nth j lens 0)) /\
    ((forall j, j < num_seq ->
        (Z.of_nat (list_sum (firstn j lens)) < req)%Z) /\
     (req <= Z.of_nat total)%Z) /\
    Forall2 (packaged self (next_idx self) ((next_idx self + num_seq) mod n)
               num_seq
               (negb (next_idx self <? (next_idx self + num_seq) mod n)))
            (datagroup self) result.
Proof.
  intros Hcur Hcall.
  destruct (next_minibatch_inv _ _ _ _ _ _ _ _ Hcall)
    as [end_ [total [num_seq [Hsel [-> Hall]]]]].
  pose proof (select_loop_inv _ _ _ _ _ _ _ _ _ Hsel) as Hinv.
  destruct Hinv as [lens [Hk [Htot [He [Hmax [Hpre [Hfin _]]]]]]].
  simpl in Hk, Htot. rewrite iter_succ_record in He by exact Hcur.
  rewrite <- Hk in He. subst end_.
  exists total, num_seq, lens.
  split; [exact Hsel|]. split; [reflexivity|]. split; [symmetry; exact Hk|].
  split; [exact Htot|]. split; [|split; [split; [|exact Hfin] | exact Hall]].
  - intros j Hj. rewrite <- (iter_succ_record self _ j Hcur).
    apply Hmax. lia.
  - intros j Hj. apply (Hpre j). lia.
Qed.

Lemma packaged_holds_visited (num_seq : nat) (item : string * Dataset V)
    (entry : StreamInformation * MinibatchData V) :
  next_idx self < n ->
  length (ds_records (snd item)) = n ->
  packaged self (next_idx self) ((next_idx self + num_seq) mod n) num_seq
    (negb (next_idx self <? (next_idx self + num_seq) mod n)) item entry ->
  holds_visited n (next_idx self) item entry.
Proof.
  intros Hcur Hlen [_ [Hns [_ [Hpay _]]]].
  unfold holds_visited. cbv zeta. rewrite Hns. intros Hk.
  destruct (extract_visits self (snd item) (next_idx self) num_seq
              Hlen Hcur Hk) as [Hl Hnth].
  rewrite Hpay. split; [rewrite length_map; exact Hl|].
  intros j Hj. rewrite nth_error_map, (Hnth j Hj). reflexivity.
Qed.

End Walk.

Section Sweep.

Context {V : Type}.
Variable self : H5DataSource V.
Variable fuel : nat.
Variable req : Z.
Variables number_of_workers worker_rank : nat.
Variable device_arg : option DeviceDescriptor.

Local Abbreviation n := (num_data_points self).
Local Abbreviation call :=
  (next_minibatch fuel self req number_of_workers worker_rank device_arg).

(** X10: Within one sweep a batch holds the records the selection counted: when
    the call counted between one and [n] records, every stream's batch has
    that many records, and its [j]-th record has the elements of record
    [(start + j) mod n] of the stream's array. *)
Theorem next_minibatch_holds_visited_records (self' : H5DataSource V)
    (result : list (StreamInformation * MinibatchData V)) :
  aligned self ->
  next_idx self < num_data_points self ->
  call = (self', Ok result) ->
  Forall2 (holds_visited (num_data_points self) (next_idx self))
          (datagroup self) result.
Proof.
  intros Hal Hcur Hcall.
  destruct (next_minibatch_walk _ _ _ _ _ _ _ _ Hcur Hcall)
    as [total [num_seq [lens [_ [_ [_ [_ [_ [_ Hall]]]]]]]]].
  eapply Forall2_strengthen; [|exact Hal | exact Hall].
  intros item entry Hlen Hp. cbv beta in Hlen.
  eapply packaged_holds_visited; eassumption.
Qed.

(** X11: Within one sweep the sweep flag says that the selection reached the
    last record: when the call counted between one and [n] records, the
    flag of every stream is set exactly when the cursor plus the count is
    [n] or more, a batch that ends on the last record included. *)
Theorem sweep_end_iff_last_record_reached (self' : H5DataSource V)
    (result : list (StreamInformation * MinibatchData V)) :
  next_idx self < num_data_points self ->
  call = (self', Ok result) ->
  Forall (fun entry =>
            1 <= mb_num_sequences (snd entry) <= num_data_points self ->
            (mb_sweep_end (snd entry) = true <->
             num_data_points self
             <= next_idx self + mb_num_sequences (snd entry)))
         result.
Proof.
  intros Hcur Hcall.
  destruct (next_minibatch_walk _ _ _ _ _ _ _ _ Hcur Hcall)
    as [total [num_seq [lens [_ [_ [_ [_ [_ [_ Hall]]]]]]]]].
  eapply Forall2_right; [|exact Hall].
  intros item entry [_ [Hns [Hsw _]]]. cbv beta.
  rewrite Hns, Hsw. intros Hk.
  rewrite <- (wrap_iff (next_idx self) num_seq n Hcur Hk).
  rewrite negb_true_iff, Nat.ltb_ge. reflexivity.
Qed.

(** X12: Successive batches continue the walk round the data set: after a call
    that counted [k1] records, the batch of the next call, if it counts
    between one and [n] records, has as its [j]-th record the record
    [(start + k1 + j) mod n], [start] being the cursor before the first
    call. *)
Theorem consecutive_batches_continue
    (fuel2 : nat) (req2 : Z) (number_of_workers2 worker_rank2 : nat)
    (device_arg2 : option DeviceDescriptor)
    (self1 self2 : H5DataSource V)
    (result1 result2 : list (StreamInformation * MinibatchData V)) :
  aligned self ->
  next_idx self < num_data_points self ->
  call = (self1, Ok result1) ->
  next_minibatch fuel2 self1 req2 number_of_workers2 worker_rank2 device_arg2
  = (self2, Ok result2) ->
  exists k1,
    Forall (fun entry => mb_num_sequences (snd entry) = k1) result1 /\
    Forall2 (holds_visited (num_data_points self) (next_idx self + k1))
            (datagroup self) result2.
Proof.
  intros Hal Hcur Hcall1 Hcall2.
  destruct (next_minibatch_walk _ _ _ _ _ _ _ _ Hcur Hcall1)
    as [total1 [k1 [lens1 [_ [-> [_ [_ [_ [_ Hall1]]]]]]]]].
  exists k1. split.
  - eapply Forall2_right; [|exact Hall1].
    intros item entry Hp. exact (proj1 (proj2 Hp)).
  - assert (Hcur1 : next_idx (set_next_idx self ((next_idx self + k1) mod n))
                    < num_data_points
                        (set_next_idx self ((next_idx self + k1) mod n))).
    { cbn [next_idx num_data_points set_next_idx].
      apply Nat.mod_upper_bound. lia. }
    destruct (next_minibatch_walk
                (set_next_idx self ((next_idx self + k1) mod n))
                fuel2 req2 number_of_workers2 worker_rank2 device_arg2
                _ _ Hcur1 Hcall2)
      as [total2 [k2 [lens2 [_ [_ [_ [_ [_ [_ Hall2]]]]]]]]].
    cbn [datagroup set_next_idx] in Hall2.
    eapply Forall2_strengthen; [|exact Hal | exact Hall2].
    intros item entry Hlen Hp. cbv beta in Hlen.
    pose proof (packaged_holds_visited
                  (set_next_idx self ((next_idx self + k1) mod n))
                  k2 item entry Hcur1 Hlen Hp) as Hv.
    cbn [next_idx num_data_points set_next_idx] in Hv.
    unfold holds_visited in *. cbv zeta in *. intros Hk.
    destruct (Hv Hk) as [Hl Hnth]. split; [exact Hl|].
    intros j Hj. rewrite (Hnth j Hj).
    rewrite Nat.Div0.add_mod_idemp_l. reflexivity.
Qed.

End Sweep.

(** ** The samples of a batch against the budget *)

Section Totals.

Context {V : Type}.
Variable self : H5DataSource V.
Variable fuel : nat.
Variable req : Z.
Variables number_of_workers worker_rank : nat.
Variable device_arg : option DeviceDescriptor.

Local Abbreviation n := (num_data_points self).
Local Abbreviation call :=
  (next_minibatch fuel self req number_of_workers worker_rank device_arg).

(** The samples one stream reports for the records the loop went through
    are at most what the loop added up for them. *)
Lemma packaged_samples_le_total (num_seq : nat) (lens : list nat)
    (item : string * Dataset V)
    (entry : StreamInformation * MinibatchData V) :
  next_idx self < n ->
  1 <= num_seq <= n ->
  length lens = num_seq ->
  (forall j, j < num_seq ->
     exists c, sample_count_ (snd item) ((next_idx self + j) mod n) = Ok c /\
               c <= nth j lens 0) ->
  length (ds_records (snd item)) = n ->
  packaged self (next_idx self) ((next_idx self + num_seq) mod n) num_seq
    (negb (next_idx self <? (next_idx self + num_seq) mod n)) item entry ->
  mb_num_samples (snd entry) <= list_sum lens.
Proof.
  intros Hcur Hk Hlens Hcount Hlen [_ [_ [_ [_ [Hdense Hseq]]]]].
  destruct (extract_visits self (snd item) (next_idx self) num_seq
              Hlen Hcur Hk) as [Hl Hnth].
  destruct (is_seq (snd item)) eqn:Hs.
  - destruct (Hseq eq_refl) as [elm_shape [Hshape [_ ->]]].
    apply list_sum_le_pointwise.
    + rewrite length_map, Hl, Hlens. reflexivity.
    + rewrite length_map, Hl. intros j Hj.
      destruct (Hcount j Hj) as [c [Hc Hle]].
      unfold sample_count_ in Hc. rewrite Hs, Hshape in Hc. cbn [bind] in Hc.
      unfold ds_getitem in Hc.
      destruct (nth_error (ds_records (snd item))
                  ((next_idx self + j) mod n)) as [seq|] eqn:Hrec;
        [|discriminate].
      cbn [bind] in Hc. injection Hc as <-.
      rewrite <- (Hnth j Hj) in Hrec.
      rewrite (nth_error_nth _ _ 0 (map_nth_error (seq_len_of elm_shape) _ _ Hrec)).
      exact Hle.
  - destruct (Hdense eq_refl) as [_ ->]. rewrite <- Hlens.
    pose proof (list_sum_firstn_ge lens) as Hge.
    rewrite <- (firstn_all lens) at 2. apply Hge; [|lia].
    intros j Hj. rewrite Hlens in Hj.
    destruct (Hcount j Hj) as [c [Hc Hle]].
    unfold sample_count_ in Hc. rewrite Hs in Hc. injection Hc as <-.
    exact Hle.
Qed.

(** X13: no stream gets a whole record's worth more than was asked for: when no
    record counts for more than [M] samples in any stream, a call with a
    positive budget that counted at most [n] records returns batches whose
    sample counts are all below the budget plus [M]. *)
Theorem batch_samples_below_budget_plus_record (M : nat)
    (self' : H5DataSource V)
    (result : list (StreamInformation * MinibatchData V)) :
  (0 < req)%Z ->
  aligned self ->
  next_idx self < num_data_points self ->
  (forall i m, i < num_data_points self ->
               max_seq_len_ self i = Ok m -> m <= M) ->
  call = (self', Ok result) ->
  Forall (fun entry =>
            mb_num_sequences (snd entry) <= num_data_points self ->
            (Z.of_nat (mb_num_samples (snd entry)) < req + Z.of_nat M)%Z)
         result.
Proof.
  intros Hreq Hal Hcur Hbound Hcall.
  destruct (next_minibatch_walk _ _ _ _ _ _ _ _ Hcur Hcall)
    as [total [num_seq [lens [_ [_ [Hlens [Htot [Hmax [[Hpre Hfin] Hall]]]]]]]]].
  assert (Hne : lens <> []).
  { intros ->. simpl in Htot. lia. }
  assert (Hk1 : 1 <= num_seq).
  { destruct lens; [contradiction | simpl in Hlens; lia]. }
  assert (Htotal : (Z.of_nat (list_sum lens) < req + Z.of_nat M)%Z).
  { pose proof (list_sum_split_last lens Hne) as Hsplit.
    pose proof (Hpre (length lens - 1) ltac:(lia)) as Hbefore.
    assert (Hlast : nth (length lens - 1) lens 0 <= M).
    { apply (Hbound ((next_idx self + (length lens - 1)) mod n)).
      - apply Nat.mod_upper_bound. lia.
      - apply Hmax. lia. }
    lia. }
  assert (Hitems : Forall (fun item =>
            length (ds_records (snd item)) = n /\
            forall j, j < num_seq ->
              exists c,
                sample_count_ (snd item) ((next_idx self + j) mod n) = Ok c /\
                c <= nth j lens 0) (datagroup self)).
  { unfold aligned in Hal. rewrite Forall_forall in *.
    intros item Hin. split; [apply Hal, Hin|].
    intros j Hj. pose proof (Hmax j Hj) as Hm.
    apply max_seq_len_loop_inv in Hm. destruct Hm as [_ [Hcs _]].
    rewrite Forall_forall in Hcs. exact (Hcs item Hin). }
  assert (Hboth : Forall2 (fun item entry =>
            mb_num_sequences (snd entry) <= n ->
            (Z.of_nat (mb_num_samples (snd entry)) < req + Z.of_nat M)%Z)
            (datagroup self) result).
  { eapply Forall2_strengthen; [|exact Hitems | exact Hall].
    intros item entry [Hlen Hcount] Hp Hk.
    rewrite (proj1 (proj2 Hp)) in Hk.
    pose proof (packaged_samples_le_total num_seq lens item entry Hcur
                  (conj Hk1 Hk) Hlens Hcount Hlen Hp).
    lia. }
  eapply Forall2_right; [|exact Hboth].
  intros item entry H. exact H.
Qed.

End Totals.

(** ** Batches that are not assembled, and the keys of those that are *)

Section Packaging.

Context {V : Type}.
Variable self : H5DataSource V.
Variable mydevice : DeviceDescriptor.
Variables start end_ num_seq : nat.
Variable sweep_end : bool.





(** What the tensor of a packaged stream is made with. *)
Lemma stream_batch_value (name : string) (dataset : Dataset V)
    (entry : StreamInformation * MinibatchData V) :
  stream_batch self mydevice start end_ num_seq sweep_end name dataset
  = Ok entry ->
  dict_get (stream_info_mapping self) name = Ok (fst entry) /\
  val_device (mb_data (snd entry)) = mydevice /\
  (is_seq dataset = true ->
   attrs_shape dataset = Ok (val_shape (mb_data (snd entry)))) /\
  (is_seq dataset = false ->
   val_shape (mb_data (snd entry)) = ds_inner_shape dataset).
Proof.
  unfold stream_batch. intros H.
  apply bind_Ok_inv in H. destruct H as [info [Hinfo H]].
  destruct (is_seq dataset).
  - apply bind_Ok_inv in H. destruct H as [elm_shape [Hshape H]].
    apply bind_Ok_inv in H. destruct H as [[rs total] [_ H]].
    injection H as <-. cbn.
    repeat split; try assumption; try discriminate. intros _. exact Hshape.
  - injection H as <-. cbn.
    repeat split; try assumption; try reflexivity. discriminate.
Qed.

Lemma batch_loop_values :
  forall items result result',
    batch_loop self mydevice start end_ num_seq sweep_end items result
    = Ok result' ->
    exists out,
      result' = result ++ out /\
      Forall2 (fun item entry =>
                 stream_batch self mydevice start end_ num_seq sweep_end
                   (fst item) (snd item) = Ok entry) items out.
Proof.
  induction items as [|[name dataset] items IH]; intros result result' H.
  - simpl in H. injection H as <-. exists [].
    rewrite app_nil_r. split; [reflexivity | constructor].
  - simpl in H. apply bind_Ok_inv in H. destruct H as [entry [He H]].
    apply IH in H. destruct H as [out [Hres Hall]].
    exists (entry :: out). split.
    + rewrite Hres, <- app_assoc. reflexivity.
    + constructor; assumption.
Qed.

End Packaging.

Section Outcome.

Context {V : Type}.
Variable self : H5DataSource V.
Variable fuel : nat.
Variable req : Z.
Variables number_of_workers worker_rank : nat.
Variable device_arg : option DeviceDescriptor.

Local Abbreviation call :=
  (next_minibatch fuel self req number_of_workers worker_rank device_arg).


(** X15: The result of a call on a source with its constructed catalog has one
    entry per stream, in the order of the data group; each is keyed by the
    catalog entry that bears the stream's name, and its tensor has the
    element shape of that catalog entry and is on the device given to the
    call, or on the device of the source when none is given. *)
Theorem next_minibatch_keyed_by_catalog
    (np_dtype : string -> option dtype) (self' : H5DataSource V)
    (result : list (StreamInformation * MinibatchData V)) :
  NoDup (map fst (datagroup self)) ->
  catalogue_from np_dtype 0 (datagroup self) (stream_info_mapping self) ->
  call = (self', Ok result) ->
  Forall2 (keyed_by_catalog
             (match device_arg with Some d => d | None => device self end))
          (datagroup self) result.
Proof.
  intros Hnd Hcat Hcall. unfold next_minibatch in Hcall.
  destruct (select_loop fuel self req (next_idx self) 0 0)
    as [[[end_ total] num_seq]| |]; try discriminate.
  injection Hcall as _ Hbatch.
  apply batch_loop_values in Hbatch. destruct Hbatch as [out [-> Hall]].
  cbn [app datagroup set_next_idx] in *.
  assert (Hitems : Forall (fun item =>
            exists info j,
              dict_get (stream_info_mapping self) (fst item) = Ok info /\
              catalogued np_dtype j item info) (datagroup self)).
  { rewrite Forall_forall. intros [name ds] Hin.
    destruct (In_nth_error _ _ Hin) as [j Hj].
    destruct (catalogue_from_nth _ _ _ _ _ _ Hcat Hj) as [info [Hnth Hc]].
    exists info, (0 + j). split; [|exact Hc].
    eapply dict_get_nth; [|exact Hnth].
    rewrite (catalogue_from_names _ _ _ _ Hcat). exact Hnd. }
  eapply Forall2_strengthen; [|exact Hitems | exact Hall].
  intros [name ds] entry [info [j [Hget Hc]]] Hsb.
  apply stream_batch_value in Hsb. cbn [fst snd] in *.
  destruct Hsb as [Hkey [Hdev [Hsq Hdn]]].
  cbn [stream_info_mapping set_next_idx device] in Hkey, Hdev.
  rewrite Hget in Hkey. injection Hkey as Hkey. subst info.
  destruct Hc as [Hname [_ [_ [Hcd Hcs]]]]. cbn [fst snd] in *.
  unfold keyed_by_catalog. cbn [fst snd].
  split; [exact Hname|]. split; [|exact Hdev].
  destruct (is_seq ds).
  - destruct (Hcs eq_refl) as [Hsh _]. pose proof (Hsq eq_refl) as Hv.
    unfold attrs_shape in Hv. rewrite Hsh in Hv. injection Hv as Hv.
    symmetry. exact Hv.
  - rewrite (Hdn eq_refl). symmetry. exact (proj1 (Hcd eq_refl)).
Qed.

End Outcome.

(** ** The scenarios, continued *)

Lemma ex_source_aligned (cursor : nat) : aligned (ex_source cursor).
Proof.
  repeat constructor.
Qed.

Lemma ex_source_cursor_8 :
  next_idx (ex_source 8) < num_data_points (ex_source 8).
Proof.
  vm_compute. lia.
Qed.

Lemma ex_source_cursor_0 :
  next_idx (ex_source 0) < num_data_points (ex_source 0).
Proof.
  vm_compute. lia.
Qed.

Lemma ex_call_8_5_returns :
  next_minibatch 5 (ex_source 8) 5 1 0 None
  = (fst ex_call_8_5, Ok (batch_of ex_call_8_5)).
Proof.
  vm_compute. reflexivity.
Qed.

Lemma ex_call_0_7_returns :
  next_minibatch 5 (ex_source 0) 7 1 0 None
  = (fst ex_call_0_7, Ok (batch_of ex_call_0_7)).
Proof.
  vm_compute. reflexivity.
Qed.

Lemma next_minibatch_holds_visited_records_witness :
  aligned (ex_source 8) /\
  next_idx (ex_source 8) < num_data_points (ex_source 8) /\
  next_minibatch 5 (ex_source 8) 5 1 0 None
  = (fst ex_call_8_5, Ok (batch_of ex_call_8_5)) /\
  Forall2 (holds_visited (num_data_points (ex_source 8))
             (next_idx (ex_source 8)))
          (datagroup (ex_source 8)) (batch_of ex_call_8_5).
Proof.
  split; [exact (ex_source_aligned 8)|].
  split; [exact ex_source_cursor_8|]. split; [exact ex_call_8_5_returns|].
  exact (next_minibatch_holds_visited_records (ex_source 8) 5 5 1 0 None _ _
           (ex_source_aligned 8) ex_source_cursor_8 ex_call_8_5_returns).
Defined.

Lemma sweep_end_iff_last_record_reached_witness :
  next_idx (ex_source 8) < num_data_points (ex_source 8) /\
  next_minibatch 5 (ex_source 8) 5 1 0 None
  = (fst ex_call_8_5, Ok (batch_of ex_call_8_5)) /\
  Forall (fun entry : StreamInformation * MinibatchData Z =>
            1 <= mb_num_sequences (snd entry) <= num_data_points (ex_source 8) ->
            (mb_sweep_end (snd entry) = true <->
             num_data_points (ex_source 8)
             <= next_idx (ex_source 8) + mb_num_sequences (snd entry)))
         (batch_of ex_call_8_5).
Proof.
  split; [exact ex_source_cursor_8|]. split; [exact ex_call_8_5_returns|].
  exact (sweep_end_iff_last_record_reached (ex_source 8) 5 5 1 0 None _ _
           ex_source_cursor_8 ex_call_8_5_returns).
Defined.

Lemma consecutive_batches_continue_witness :
  aligned (ex_source 0) /\
  next_idx (ex_source 0) < num_data_points (ex_source 0) /\
  next_minibatch 5 (ex_source 0) 7 1 0 None
  = (fst ex_call_0_7, Ok (batch_of ex_call_0_7)) /\
  next_minibatch 5 (fst ex_call_0_7) 5 1 0 None
  = (fst (next_minibatch 5 (fst ex_call_0_7) 5 1 0 None),
     Ok (batch_of (next_minibatch 5 (fst ex_call_0_7) 5 1 0 None))) /\
  exists k1,
    Forall (fun entry : StreamInformation * MinibatchData Z =>
              mb_num_sequences (snd entry) = k1) (batch_of ex_call_0_7) /\
    Forall2 (holds_visited (num_data_points (ex_source 0))
               (next_idx (ex_source 0) + k1))
            (datagroup (ex_source 0))
            (batch_of (next_minibatch 5 (fst ex_call_0_7) 5 1 0 None)).
Proof.
  assert (H : next_minibatch 5 (fst ex_call_0_7) 5 1 0 None
              = (fst (next_minibatch 5 (fst ex_call_0_7) 5 1 0 None),
                 Ok (batch_of (next_minibatch 5 (fst ex_call_0_7) 5 1 0 None))))
    by (vm_compute; reflexivity).
  split; [exact (ex_source_aligned 0)|].
  split; [exact ex_source_cursor_0|]. split; [exact ex_call_0_7_returns|].
  split; [exact H|].
  exact (consecutive_batches_continue (ex_source 0) 5 7 1 0 None
           5 5 1 0 None _ _ _ _
           (ex_source_aligned 0) ex_source_cursor_0 ex_call_0_7_returns H).
Defined.

Lemma batch_samples_below_budget_plus_record_witness :
  (0 < 7)%Z /\
  aligned (ex_source 0) /\
  next_idx (ex_source 0) < num_data_points (ex_source 0) /\
  next_minibatch 5 (ex_source 0) 7 1 0 None
  = (fst ex_call_0_7, Ok (batch_of ex_call_0_7)) /\
  Forall (fun entry : StreamInformation * MinibatchData Z =>
            mb_num_sequences (snd entry) <= num_data_points (ex_source 0) ->
            (Z.of_nat (mb_num_samples (snd entry)) < 7 + Z.of_nat 4)%Z)
         (batch_of ex_call_0_7).
Proof.
  assert (H : (0 < 7)%Z) by lia.
  split; [exact H|]. split; [exact (ex_source_aligned 0)|].
  split; [exact ex_source_cursor_0|]. split; [exact ex_call_0_7_returns|].
  exact (batch_samples_below_budget_plus_record (ex_source 0) 5 7 1 0 None 4
           _ _ H (ex_source_aligned 0) ex_source_cursor_0
           (fun i m Hi Hm => proj2 (ex_source_bounds 0 i m Hi Hm))
           ex_call_0_7_returns).
Defined.




Lemma ex_source_catalogue :
  catalogue_from ex_np_dtype 0 (datagroup (ex_source 0))
    (stream_info_mapping (ex_source 0)).
Proof.
  exact (proj2 (init_catalogue ex_np_dtype ex_group cpu (ex_source 0)
                  ex_group_names ex_source_constructed)).
Qed.

Lemma next_minibatch_keyed_by_catalog_witness :
  NoDup (map fst (datagroup (ex_source 0))) /\
  catalogue_from ex_np_dtype 0 (datagroup (ex_source 0))
    (stream_info_mapping (ex_source 0)) /\
  next_minibatch 5 (ex_source 0) 7 1 0 None
  = (fst ex_call_0_7, Ok (batch_of ex_call_0_7)) /\
  Forall2 (keyed_by_catalog cpu) (datagroup (ex_source 0))
          (batch_of ex_call_0_7).
Proof.
  split; [exact ex_group_names|]. split; [exact ex_source_catalogue|].
  split; [exact ex_call_0_7_returns|].
  exact (next_minibatch_keyed_by_catalog (ex_source 0) 5 7 1 0 None
           ex_np_dtype _ _ ex_group_names ex_source_catalogue
           ex_call_0_7_returns).
Defined.

(** ** A source without records *)

Section NoRecords.

Context {V : Type}.
Variable self : H5DataSource V.
Variable fuel : nat.
Variable req : Z.
Variables number_of_workers worker_rank : nat.
Variable device_arg : option DeviceDescriptor.

Local Abbreviation call :=
  (next_minibatch fuel self req number_of_workers worker_rank device_arg).

(** X16: Over arrays without records the source counts zero records, and a call
    with a positive budget then never returns a batch: the first pass of
    the loop raises, at the latest when the new end is taken modulo zero,
    and the source is left as it was. *)
Theorem next_minibatch_no_records_raises :
  num_data_points self = 0 ->
  (0 < req)%Z ->
  1 <= fuel ->
  raises (snd call) /\ fst call = self /\
  (forall m, max_seq_len_ self (next_idx self) = Ok m ->
             snd call = Raise ZeroDivisionError).
Proof.
  intros Hn Hreq Hfuel. unfold next_minibatch, raises.
  destruct fuel as [|fuel']; [lia|]. cbn [select_loop].
  replace (Z.of_nat 0 <? req)%Z with true
    by (symmetry; apply Z.ltb_lt; simpl; lia).
  destruct (max_seq_len_ self (next_idx self)) as [m|e|] eqn:Hm; cbn [bind].
  - unfold py_mod. rewrite Hn. cbn [Nat.eqb bind fst snd].
    split; [eexists; reflexivity|]. split; reflexivity.
  - cbn [fst snd]. split; [eexists; reflexivity|].
    split; [reflexivity | discriminate].
  - exfalso. exact (max_seq_len_not_cut_off self _ Hm).
Qed.

End NoRecords.

Lemma next_minibatch_no_records_raises_witness :
  num_data_points ex_no_records = 0 /\
  (0 < 1)%Z /\
  1 <= 1 /\
  raises (snd (next_minibatch 1 ex_no_records 1 1 0 None)) /\
  fst (next_minibatch 1 ex_no_records 1 1 0 None) = ex_no_records /\
  (forall m, max_seq_len_ ex_no_records (next_idx ex_no_records) = Ok m ->
             snd (next_minibatch 1 ex_no_records 1 1 0 None)
             = Raise ZeroDivisionError).
Proof.
  assert (H1 : num_data_points ex_no_records = 0) by reflexivity.
  assert (H2 : (0 < 1)%Z) by lia.
  assert (H3 : 1 <= 1) by lia.
  split; [exact H1|]. split; [exact H2|]. split; [exact H3|].
  exact (next_minibatch_no_records_raises ex_no_records 1 1 1 0 None
           H1 H2 H3).
Defined.

(** ** A source constructed over sound data *)

Section ConstructedSource.

Context {V : Type}.
Variable np_dtype : string -> option dtype.


End ConstructedSource.


